(** * GridGopher: the sheet collector

    A shallow embedding of [gridgopher/sheet_collector.py] and the
    properties of its extraction pipeline: header handling in
    [Sheet.to_dataframe], the region loop of [Sheet.collect_regions], the
    file loop of [SheetCollector.collect_files] and the JSON export of
    [Region.region_to_json].

    Python objects that are mutated in place ([self.regions],
    [self.sheets_data]) are threaded explicitly: a method returns its
    outcome together with the object as the call left it, so that what an
    exception leaves behind can be stated. *)

From Stdlib Require Import Ascii.
From stdpp Require Import gmap strings list fin_maps pretty.

Open Scope string_scope.
Open Scope list_scope.
Open Scope nat_scope.

(** ** Exceptions

    The module declares no exception class of its own: it raises the
    builtin [Exception] with a message, and otherwise lets the exceptions
    of the operations it uses escape. *)

Inductive error :=
  | AssertionError
  | KeyError (key : string)
  | IndexError
  | ValueError
  | Exception (msg : string)
  | HttpError
  | YAMLError
  | OSError.

Inductive result (A : Type) :=
  | Ok (a : A)
  | Raise (e : error).
Arguments Ok {A} a.
Arguments Raise {A} e.

Global Instance result_ret : MRet result := λ A a, Ok a.

Global Instance result_bind : MBind result := λ A B k r,
  match r with
  | Ok a => k a
  | Raise e => Raise e
  end.

Definition is_ok {A} (r : result A) : bool :=
  match r with Ok _ => true | Raise _ => false end.

(** A statement of a method body: runs on the object and leaves an outcome
    and the object. [for_each] is the [for] loop: it stops at the first
    iteration that raises. *)

Definition stmt (S : Type) : Type := S → result unit * S.

Fixpoint for_each {S A} (body : A → stmt S) (l : list A) : stmt S :=
  λ self,
    match l with
    | [] => (Ok (), self)
    | x :: l' =>
        match body x self with
        | (Ok _, self') => for_each body l' self'
        | (Raise e, self') => (Raise e, self')
        end
    end.

(** ** pandas

    The part of the data frame library the module calls. A cell holds the
    string the remote sheet returned, or nothing ([None]) where the frame
    had to fill a short row. *)

Module pd.

Definition cell : Type := option string.

Record DataFrame := mkDataFrame {
  columns : list string;
  rows : list (list cell)
}.

(** Number of cells of the longest row. *)
Definition width (data : list (list string)) : nat :=
  foldr (λ row k, length row `max` k) 0 data.

Definition fill (k : nat) (row : list string) : list cell :=
  (Some <$> row) ++ replicate (k - length row) None.

(** [pd.DataFrame(data, columns=columns)] for a list of rows. Without
    rows the frame is empty and has the columns asked for. Otherwise the
    rows are laid out in a table as wide as the longest of them, shorter
    rows filled with [None], and the call raises [ValueError] ("n columns
    passed, passed data had k columns") unless that width is the number
    of column names. The rows are indexed 0, 1, ... *)
Definition from_rows (data : list (list string)) (columns : list string)
  : result DataFrame :=
  match data with
  | [] => Ok (mkDataFrame columns [])
  | _ =>
      if decide (width data = length columns)
      then Ok (mkDataFrame columns (fill (length columns) <$> data))
      else Raise ValueError
  end.

(** One row as [dict(zip(columns, row))]: a later column of the same name
    replaces the earlier one. *)
Definition set_item (d : gmap string cell) (kv : string * cell)
  : gmap string cell :=
  <[kv.1 := kv.2]> d.

Definition row_dict (columns : list string) (row : list cell)
  : gmap string cell :=
  foldl set_item ∅ (zip columns row).

(** [df.to_dict("index")]: row index to the row's dictionary. *)
Definition to_dict_index (df : DataFrame) : gmap nat (gmap string cell) :=
  map_seq 0 (row_dict (columns df) <$> rows df).

End pd.

(** ** JSON files

    A JSON file is kept as the value its text denotes: the object that
    [region_to_json] dumps, whose keys are strings. [json.dump] writes a
    dictionary keyed by integers with each key turned into its decimal
    string, [None] as [null]; reading the file back yields the object
    itself. *)

Module json.

Record object := mkObject {
  j_region_name : string;
  j_parent_name : string;
  j_full_name : string;
  j_start_range : string;
  j_end_range : string;
  j_data : gmap string (gmap string pd.cell)
}.

(** The dictionary [self_data] that [region_to_json] builds. *)
Record self_data := mkSelfData {
  d_region_name : string;
  d_parent_name : string;
  d_full_name : string;
  d_start_range : string;
  d_end_range : string;
  d_data : gmap nat (gmap string pd.cell)
}.

(** The text [json.dump] writes, as the object it denotes. *)
Definition dump (d : self_data) : object :=
  {| j_region_name := d_region_name d;
     j_parent_name := d_parent_name d;
     j_full_name := d_full_name d;
     j_start_range := d_start_range d;
     j_end_range := d_end_range d;
     j_data := kmap (pretty : nat → string) (d_data d) |}.

End json.

(** The files a region is written to. Which file a path names, and
    whether it can be opened, is decided by pathlib and the operating
    system, not by the module: [opens fs directory name] is the file that
    [open(pathlib.Path(".") / directory / name, ..)] opens, or the error it
    raises (the directory is missing or cannot be written, a [/] in the
    name leads into a directory that is not there, ...). Nothing is assumed
    of it: two names may open one file, and a name with a [/] in it, or an
    absolute one, may open a file outside the directory. [content] is what
    each file that exists holds. *)

Record files := mkFiles {
  opens : string → string → result positive;
  content : gmap positive json.object
}.

(** [with open(pathlib.Path(".") / directory / name, "w+") as outfile]
    followed by the dump of [obj] into it. *)
Definition write_json (directory name : string) (obj : json.object)
  : stmt files :=
  λ fs,
    match opens fs directory name with
    | Ok file =>
        (Ok (), {| opens := opens fs;
                   content := <[file := obj]> (content fs) |})
    | Raise e => (Raise e, fs)
    end.

(** [json.load] of the file at [pathlib.Path(".") / directory / name]. *)
Definition read_json (fs : files) (directory name : string)
  : result json.object :=
  file ← opens fs directory name;
  match content fs !! file with
  | Some obj => Ok obj
  | None => Raise OSError
  end.

(** ** Configuration

    The parsed yaml configuration of one source. Every key the module
    subscripts is a field; ["headers"] is the one key a configuration may
    leave out, and when present it holds a list or yaml's null. *)

Record RegionDescriptor := mkRegionDescriptor {
  rd_name : string;
  rd_start : string;
  rd_end : string;
  rd_contains_headers : bool;
  rd_headers : option (option (list string))
}.

Record SubsheetDescriptor := mkSubsheetDescriptor {
  sh_name : string;
  sh_regions : list RegionDescriptor
}.

Record SourceDescriptor := mkSourceDescriptor {
  cfg_source_id : string;
  cfg_sheets : list SubsheetDescriptor
}.

(** What [yaml.safe_load] hands back: a mapping, or some other yaml value
    (a sequence, a scalar, null). *)
Inductive yaml_value :=
  | YDict (config : SourceDescriptor)
  | YNotDict.

(** [region["headers"]] *)
Definition subscript_headers (region : RegionDescriptor)
  : result (option (list string)) :=
  match rd_headers region with
  | Some headers => Ok headers
  | None => Raise (KeyError "headers")
  end.

(** ** The remote sheets service

    [api.values().get(spreadsheetId=.., range=..).execute()] answers with a
    response that has a ["values"] entry unless the range is empty, or
    fails. *)

Definition sheets_api : Type :=
  string → string → result (option (list (list string))).

(** ** Region *)

Module Region.

Record t := mk {
  region_name : string;
  parent_sheet_name : string;
  full_name : string;
  start_range : string;
  end_range : string;
  data : pd.DataFrame
}.

(** [Region.__init__] *)
Definition init (region_name parent_sheet_name start_range end_range : string)
    (data : pd.DataFrame) : t :=
  {| region_name := region_name;
     parent_sheet_name := parent_sheet_name;
     full_name := parent_sheet_name +:+ "_" +:+ region_name;
     start_range := start_range;
     end_range := end_range;
     data := data |}.

(** The dictionary [self_data] of [region_to_json]. *)
Definition self_data (self : t) : json.self_data :=
  {| json.d_region_name := region_name self;
     json.d_parent_name := parent_sheet_name self;
     json.d_full_name := full_name self;
     json.d_start_range := start_range self;
     json.d_end_range := end_range self;
     json.d_data := pd.to_dict_index (data self) |}.

(** [Region.region_to_json] *)
Definition region_to_json (self : t) (directory : string) : stmt files :=
  write_json directory (full_name self +:+ ".json") (json.dump (self_data self)).

End Region.

(** ** Sheet *)

Module Sheet.

Record t := mk {
  api : sheets_api;
  config : SourceDescriptor;
  regions : gmap string Region.t
}.

Definition set_regions (self : t) (regions : gmap string Region.t) : t :=
  {| api := api self; config := config self; regions := regions |}.

(** [Sheet.check_config_schema]: the assertion, then [return True]. *)
Definition check_config_schema (config : yaml_value) : result bool :=
  match config with
  | YDict _ => Ok true
  | YNotDict => Raise AssertionError
  end.

(** [Sheet.__init__] *)
Definition init (config : yaml_value) (sheets_api : sheets_api) : result t :=
  _ ← check_config_schema config;
  match config with
  | YDict c => Ok {| api := sheets_api; config := c; regions := ∅ |}
  | YNotDict => Raise AssertionError
  end.

(** [Sheet.execute_sheets_call] *)
Definition execute_sheets_call (api : sheets_api)
    (file_id sheet_name start_range end_range : string)
  : result (list (list string)) :=
  response ← api file_id (sheet_name +:+ "!" +:+ start_range +:+ ":" +:+ end_range);
  Ok (default [] response).

(** Python's truth value of [headers]: [None] and [[]] are false. *)
Definition truthy (headers : option (list string)) : bool :=
  match headers with
  | None | Some [] => false
  | Some (_ :: _) => true
  end.

(** [Sheet.to_dataframe] *)
Definition to_dataframe (data : list (list string)) (headers_in_data : bool)
    (headers : option (list string)) : result pd.DataFrame :=
  if headers_in_data then
    match data !! 0 with
    | Some first => pd.from_rows (drop 1 data) first
    | None => Raise IndexError
    end
  else if negb (truthy headers) then
    Raise (Exception "No passed table headers")
  else
    pd.from_rows data (default [] headers).

(** One pass of the inner loop of [collect_regions] up to the built
    [Region]: the call, the frame, the object. *)
Definition build_region (api : sheets_api) (source_id : string)
    (sheet : SubsheetDescriptor) (region : RegionDescriptor)
  : result Region.t :=
  region_data ← execute_sheets_call api source_id (sh_name sheet)
                  (rd_start region) (rd_end region);
  data ← (if rd_contains_headers region
          then to_dataframe region_data true None
          else headers ← subscript_headers region;
               to_dataframe region_data false headers);
  Ok (Region.init (rd_name region) (sh_name sheet)
        (rd_start region) (rd_end region) data).

(** The body of the inner loop: build, then
    [self.regions[region["name"]] = region_object]. *)
Definition collect_region (sheet : SubsheetDescriptor)
    (region : RegionDescriptor) : stmt t :=
  λ self,
    match build_region (api self) (cfg_source_id (config self)) sheet region with
    | Ok region_object =>
        (Ok (), set_regions self (<[rd_name region := region_object]> (regions self)))
    | Raise e => (Raise e, self)
    end.

(** [Sheet.collect_regions] *)
Definition collect_regions : stmt t :=
  λ self,
    for_each
      (λ sheet, for_each (collect_region sheet) (sh_regions sheet))
      (cfg_sheets (config self))
      self.

(** [Sheet.get_region] *)
Definition get_region (self : t) (region_name : string) : result Region.t :=
  match regions self !! region_name with
  | Some requested_region => Ok requested_region
  | None => Raise (KeyError region_name)
  end.

End Sheet.

(** ** SheetCollector *)

(** A yaml file found in the configuration directory: the stem of its path
    and what opening and [yaml.safe_load] give for it. *)
Record yaml_file := mkYamlFile {
  stem : string;
  safe_load : result yaml_value
}.

Module SheetCollector.

Record t := mk {
  key_file : string;
  sheets : option sheets_api;
  config_dir : string;
  sheets_data : gmap string Sheet.t
}.

Definition set_sheets_data (self : t) (sheets_data : gmap string Sheet.t) : t :=
  {| key_file := key_file self; sheets := sheets self;
     config_dir := config_dir self; sheets_data := sheets_data |}.

(** [SheetCollector.get_yaml_files]: [directory.glob("*.yaml")], read off
    the directory tree [tree]. *)
Definition get_yaml_files (tree : string → list yaml_file)
    (directory : string) : list yaml_file :=
  tree directory.

(** The body of the [with] block up to the filled sheet object: load,
    construct, collect. The sheet object is local to the iteration; an
    exception drops it. *)
Definition load_sheet (api : sheets_api) (yaml_file : yaml_file)
  : result Sheet.t :=
  config_data ← safe_load yaml_file;
  sheet_obj ← Sheet.init config_data api;
  match Sheet.collect_regions sheet_obj with
  | (Ok _, sheet_obj') => Ok sheet_obj'
  | (Raise e, _) => Raise e
  end.

(** The body of the loop of [collect_files]. *)
Definition collect_file (api : sheets_api) (yaml_file : yaml_file) : stmt t :=
  λ self,
    match load_sheet api yaml_file with
    | Ok sheet_obj =>
        (Ok (), set_sheets_data self (<[stem yaml_file := sheet_obj]> (sheets_data self)))
    | Raise e => (Raise e, self)
    end.

(** [SheetCollector.collect_files] *)
Definition collect_files (tree : string → list yaml_file) : stmt t :=
  λ self,
    match sheets self with
    | None => (Raise (Exception "ERROR: Collector was not authenticated"), self)
    | Some api =>
        for_each (collect_file api) (get_yaml_files tree (config_dir self)) self
    end.

End SheetCollector.

(** ** The sequence of declared regions *)

(** The two nested loops of [collect_regions] visit the declared regions in
    one sequence: subsheet by subsheet, region by region. *)

Definition declared (config : SourceDescriptor)
  : list (SubsheetDescriptor * RegionDescriptor) :=
  sheet ← cfg_sheets config; (λ region, (sheet, region)) <$> sh_regions sheet.

Definition collect_declared (l : list (SubsheetDescriptor * RegionDescriptor))
  : stmt Sheet.t :=
  for_each (λ p, Sheet.collect_region p.1 p.2) l.

(** What the sheet's own api and source id build for a descriptor. *)
Definition builds (self : Sheet.t) (p : SubsheetDescriptor * RegionDescriptor)
  : result Region.t :=
  Sheet.build_region (Sheet.api self) (cfg_source_id (Sheet.config self)) p.1 p.2.

(** ** Tables

    [table_of columns body df]: the frame [df] has the column names
    [columns] and one row per row of [body], in order; every cell of a
    body row falls under a column, and row [i] holds under column [j] the
    [j]-th cell of the [i]-th body row, or nothing where that row is
    shorter. *)

Definition table_of (columns : list string) (body : list (list string))
    (df : pd.DataFrame) : Prop :=
  pd.columns df = columns ∧
  length (pd.rows df) = length body ∧
  ∀ i row, body !! i = Some row →
    length row ≤ length columns ∧
    ∃ cells, pd.rows df !! i = Some cells ∧
      ∀ j c, columns !! j = Some c → cells !! j = Some (row !! j).

(** The error of a descriptor without usable headers: the subscript fails
    when the key is absent, the header check when the entry is null or
    empty. *)
Definition missing_headers_error (region : RegionDescriptor) : error :=
  match rd_headers region with
  | None => KeyError "headers"
  | Some _ => Exception "No passed table headers"
  end.

(** ** Reading a region back

    [reproduces self obj]: the object [obj] read from a file gives the
    region's name, full name and range, its table keyed by the decimal row
    indices, and under each index a dictionary that has the column names as
    keys and maps the name of column [j] to the cell the row holds there. *)

Definition reproduces (self : Region.t) (obj : json.object) : Prop :=
  json.j_region_name obj = Region.region_name self ∧
  json.j_full_name obj
    = Region.parent_sheet_name self +:+ "_" +:+ Region.region_name self ∧
  json.j_start_range obj = Region.start_range self ∧
  json.j_end_range obj = Region.end_range self ∧
  (∀ key, is_Some (json.j_data obj !! key) ↔
          ∃ i, i < length (pd.rows (Region.data self)) ∧ key = pretty i) ∧
  ∀ i cells, pd.rows (Region.data self) !! i = Some cells →
    ∃ row, json.j_data obj !! pretty i = Some row ∧
      (∀ c, is_Some (row !! c) → c ∈ pd.columns (Region.data self)) ∧
      ∀ j c v, pd.columns (Region.data self) !! j = Some c →
               cells !! j = Some v → row !! c = Some v.

(** [c in s] for a character [c] of a string [s]. *)
Fixpoint occurs (c : Ascii.ascii) (s : string) : bool :=
  match s with
  | EmptyString => false
  | String c' s' => if decide (c = c') then true else occurs c s'
  end.

(** No file yet, every directory there and open to writing, none with a
    directory in it: a name without [/] opens a file of its own in its
    directory, a name with [/] no file. *)
Definition empty_files : files :=
  {| opens := λ directory name,
       if occurs "/"%char name then Raise OSError
       else Ok (encode (directory, name));
     content := ∅ |}.

(** ** Sample sources

    The source of the specification's scenarios, and variations of it. The
    remote sheet answers three rows for [Sheet1!A1:B2], a header row alone
    followed by a longer row for [Wide!A1:B2], a response without values
    for [Sheet2!A1:B2], and fails for any other range. *)

Definition sample_api : sheets_api :=
  λ _ range,
    if decide (range = "Sheet1!A1:B2")
    then Ok (Some [["a"; "b"]; ["1"; "2"]; ["3"; "4"]])
    else if decide (range = "Wide!A1:B2")
    then Ok (Some [["a"; "b"]; ["1"; "2"; "3"]])
    else if decide (range = "Sheet2!A1:B2") then Ok None
    else Raise HttpError.

Definition with_headers (name : string) : RegionDescriptor :=
  {| rd_name := name; rd_start := "A1"; rd_end := "B2";
     rd_contains_headers := true; rd_headers := None |}.

Definition without_headers (name : string)
    (headers : option (option (list string))) : RegionDescriptor :=
  {| rd_name := name; rd_start := "A1"; rd_end := "B2";
     rd_contains_headers := false; rd_headers := headers |}.

Definition subsheet (name : string) (regions : list RegionDescriptor)
  : SubsheetDescriptor :=
  {| sh_name := name; sh_regions := regions |}.

Definition sample_config (sheets : list SubsheetDescriptor) : SourceDescriptor :=
  {| cfg_source_id := "S1"; cfg_sheets := sheets |}.

Definition sample_sheet (sheets : list SubsheetDescriptor) : Sheet.t :=
  {| Sheet.api := sample_api;
     Sheet.config := sample_config sheets;
     Sheet.regions := ∅ |}.

(** A configuration file that loads and extracts, and one that does not
    parse. *)
Definition good_file (stem : string) : yaml_file :=
  {| stem := stem;
     safe_load := Ok (YDict (sample_config [subsheet "Sheet1" [with_headers "R1"]])) |}.

Definition bad_file (stem : string) : yaml_file :=
  {| stem := stem; safe_load := Raise YAMLError |}.

Definition sample_collector (sheets_data : gmap string Sheet.t)
  : SheetCollector.t :=
  {| SheetCollector.key_file := "private/keys.json";
     SheetCollector.sheets := Some sample_api;
     SheetCollector.config_dir := "config/sheet_sources";
     SheetCollector.sheets_data := sheets_data |}.

(** A remote sheet that answers the three rows of [Sheet1!A1:B2] for every
    range. *)
Definition uniform_api : sheets_api :=
  λ _ _, Ok (Some [["a"; "b"]; ["1"; "2"]; ["3"; "4"]]).

(** * Properties *)

(** ** Loops *)

Section for_each.
Context {S A : Type} (body : A → stmt S).

Lemma for_each_app (l1 l2 : list A) (self : S) :
  for_each body (l1 ++ l2) self =
    match for_each body l1 self with
    | (Ok _, self') => for_each body l2 self'
    | (Raise e, self') => (Raise e, self')
    end.
Proof.
  revert self. induction l1 as [|x l1 IH]; intros self; simpl.
  - done.
  - destruct (body x self) as [[[]|e] self']; [apply IH | done].
Qed.

Lemma for_each_cons_ok (x : A) (l : list A) (self self' : S) :
  body x self = (Ok (), self') →
  for_each body (x :: l) self = for_each body l self'.
Proof. intros Hx. simpl. by rewrite Hx. Qed.

Lemma for_each_cons_raise (x : A) (l : list A) (self self' : S) (e : error) :
  body x self = (Raise e, self') →
  for_each body (x :: l) self = (Raise e, self').
Proof. intros Hx. simpl. by rewrite Hx. Qed.

(** A property of the object that no iteration disturbs, whatever its
    outcome, holds when the loop is left. *)
Lemma for_each_preserves (P : S → Prop) (l : list A) (self : S) :
  (∀ x s, x ∈ l → P s → P (body x s).2) →
  P self → P (for_each body l self).2.
Proof.
  revert self. induction l as [|x l IH]; intros self Hbody HP; simpl; [done|].
  pose proof (Hbody x self (list_elem_of_here _ _) HP) as Hx.
  destruct (body x self) as [[[]|e] self']; simpl in *; [|done].
  apply IH; [|done]. intros y s Hy. apply Hbody. by apply list_elem_of_further.
Qed.

End for_each.

(** The two nested loops of [collect_regions] are one visit of the declared
    regions. *)

Lemma for_each_regions_declared (sheet : SubsheetDescriptor)
    (regions : list RegionDescriptor) (self : Sheet.t) :
  for_each (Sheet.collect_region sheet) regions self =
  collect_declared ((λ region, (sheet, region)) <$> regions) self.
Proof.
  unfold collect_declared.
  revert self. induction regions as [|region regions IH]; intros self; simpl; [done|].
  destruct (Sheet.collect_region sheet region self) as [[[]|e] self']; [apply IH | done].
Qed.

Lemma collect_regions_declared (self : Sheet.t) :
  Sheet.collect_regions self = collect_declared (declared (Sheet.config self)) self.
Proof.
  unfold Sheet.collect_regions, declared.
  generalize (cfg_sheets (Sheet.config self)) as sheets.
  generalize self as s.
  intros s sheets. revert s.
  induction sheets as [|sheet sheets IH]; intros s; simpl; [done|].
  unfold collect_declared. rewrite for_each_app.
  fold (collect_declared ((λ region, (sheet, region)) <$> sh_regions sheet) s).
  rewrite <- for_each_regions_declared.
  destruct (for_each (Sheet.collect_region sheet) (sh_regions sheet) s)
    as [[[]|e] s']; [apply IH | done].
Qed.

(** ** One region *)

Section collect_region.
Implicit Types (self : Sheet.t) (sheet : SubsheetDescriptor)
  (region : RegionDescriptor).

Lemma collect_region_ok self sheet region region_object :
  builds self (sheet, region) = Ok region_object →
  Sheet.collect_region sheet region self =
    (Ok (), Sheet.set_regions self
              (<[rd_name region := region_object]> (Sheet.regions self))).
Proof. unfold builds, Sheet.collect_region. simpl. by intros ->. Qed.

Lemma collect_region_raise self sheet region e :
  builds self (sheet, region) = Raise e →
  Sheet.collect_region sheet region self = (Raise e, self).
Proof. unfold builds, Sheet.collect_region. simpl. by intros ->. Qed.

Lemma collect_declared_cons_ok self sheet region l region_object :
  builds self (sheet, region) = Ok region_object →
  collect_declared ((sheet, region) :: l) self =
    collect_declared l
      (Sheet.set_regions self
         (<[rd_name region := region_object]> (Sheet.regions self))).
Proof.
  intros Hb. unfold collect_declared. simpl.
  by rewrite (collect_region_ok _ _ _ _ Hb).
Qed.

Lemma collect_declared_cons_raise self sheet region l e :
  builds self (sheet, region) = Raise e →
  collect_declared ((sheet, region) :: l) self = (Raise e, self).
Proof.
  intros Hb. unfold collect_declared. simpl.
  by rewrite (collect_region_raise _ _ _ _ Hb).
Qed.

Lemma collect_declared_app l1 l2 self :
  collect_declared (l1 ++ l2) self =
    match collect_declared l1 self with
    | (Ok _, self') => collect_declared l2 self'
    | (Raise e, self') => (Raise e, self')
    end.
Proof. apply for_each_app. Qed.

Lemma collect_region_api_config self sheet region :
  let self' := (Sheet.collect_region sheet region self).2 in
  Sheet.api self' = Sheet.api self ∧ Sheet.config self' = Sheet.config self.
Proof.
  unfold Sheet.collect_region.
  by destruct (Sheet.build_region _ _ sheet region).
Qed.

Lemma collect_region_other_name self sheet region k :
  rd_name region ≠ k →
  Sheet.regions (Sheet.collect_region sheet region self).2 !! k
  = Sheet.regions self !! k.
Proof.
  intros Hk. unfold Sheet.collect_region.
  destruct (Sheet.build_region _ _ sheet region); simpl; [|done].
  by rewrite lookup_insert_ne.
Qed.

Lemma collect_declared_api_config l self :
  let self' := (collect_declared l self).2 in
  Sheet.api self' = Sheet.api self ∧ Sheet.config self' = Sheet.config self.
Proof.
  apply (for_each_preserves _
    (λ s, Sheet.api s = Sheet.api self ∧ Sheet.config s = Sheet.config self));
    [|done].
  intros p s _ [Ha Hc].
  destruct (collect_region_api_config s p.1 p.2) as [Ha' Hc']. simpl in *.
  split; congruence.
Qed.

Lemma builds_collect_declared l self p :
  builds (collect_declared l self).2 p = builds self p.
Proof.
  destruct (collect_declared_api_config l self) as [Ha Hc]. simpl in *.
  unfold builds. by rewrite Ha, Hc.
Qed.

(** Regions under names that none of the visited descriptors carries are
    as they were, whether the visit ends normally or not. *)
Lemma collect_declared_other_name l self k :
  Forall (λ p, rd_name p.2 ≠ k) l →
  Sheet.regions (collect_declared l self).2 !! k = Sheet.regions self !! k.
Proof.
  intros Hl.
  apply (for_each_preserves _
    (λ s, Sheet.regions s !! k = Sheet.regions self !! k)); [|done].
  intros p s Hp Hs. rewrite <- Hs.
  apply collect_region_other_name.
  rewrite Forall_forall in Hl. by apply Hl.
Qed.

(** When every visited descriptor builds, the visit ends normally. *)
Lemma collect_declared_all_build l self :
  Forall (λ p, is_ok (builds self p) = true) l →
  (collect_declared l self).1 = Ok ().
Proof.
  revert self. induction l as [|[sheet region] l IH]; intros self Hl; [done|].
  inversion Hl as [|? ? Hp Hl']; subst.
  destruct (builds self (sheet, region)) as [r|e] eqn:Hb; [|done].
  rewrite (collect_declared_cons_ok _ _ _ _ _ Hb).
  apply IH. eapply Forall_impl; [exact Hl'|]. intros p Hok. simpl in *.
  by rewrite <- Hok.
Qed.

(** A visit that ends normally built every descriptor. *)
Lemma collect_declared_ok_builds l self self' p :
  collect_declared l self = (Ok (), self') → p ∈ l →
  is_ok (builds self p) = true.
Proof.
  revert self. induction l as [|[sheet region] l IH]; intros self Hrun Hp.
  - by apply elem_of_nil in Hp.
  - destruct (builds self (sheet, region)) as [r|e] eqn:Hb.
    + rewrite (collect_declared_cons_ok _ _ _ _ _ Hb) in Hrun.
      apply elem_of_cons in Hp as [->|Hp]; [by rewrite Hb|].
      specialize (IH _ Hrun Hp). by rewrite <- IH.
    + by rewrite (collect_declared_cons_raise _ _ _ _ _ Hb) in Hrun.
Qed.

(** The visit stops at the first descriptor that does not build, and
    leaves the sheet as the descriptors before it left it. *)
Lemma collect_declared_stops pre sheet region post self e :
  Forall (λ p, is_ok (builds self p) = true) pre →
  builds self (sheet, region) = Raise e →
  collect_declared (pre ++ (sheet, region) :: post) self
  = (Raise e, (collect_declared pre self).2).
Proof.
  intros Hpre Hb. rewrite collect_declared_app.
  pose proof (collect_declared_all_build _ _ Hpre) as Hok.
  pose proof (builds_collect_declared pre self (sheet, region)) as Hb1.
  destruct (collect_declared pre self) as [o s1]. simpl in *. subst o.
  rewrite Hb in Hb1.
  by rewrite (collect_declared_cons_raise _ _ _ _ _ Hb1).
Qed.

(** After a visit that ends normally, a name holds the region of the last
    visited descriptor that carries it. *)
Lemma collect_declared_last pre sheet region post self self' :
  collect_declared (pre ++ (sheet, region) :: post) self = (Ok (), self') →
  Forall (λ p, rd_name p.2 ≠ rd_name region) post →
  ∃ region_object,
    builds self (sheet, region) = Ok region_object ∧
    Sheet.regions self' !! rd_name region = Some region_object.
Proof.
  intros Hrun Hpost.
  assert (is_ok (builds self (sheet, region)) = true) as Hb.
  { eapply collect_declared_ok_builds; [exact Hrun|]. set_solver. }
  destruct (builds self (sheet, region)) as [r|e] eqn:Hbr; [|done].
  clear Hb. exists r. split; [done|].
  rewrite collect_declared_app in Hrun.
  pose proof (builds_collect_declared pre self (sheet, region)) as Hb1.
  destruct (collect_declared pre self) as [[[]|e] s1]; [|done]. simpl in Hb1.
  rewrite Hbr in Hb1.
  rewrite (collect_declared_cons_ok _ _ _ _ _ Hb1) in Hrun.
  replace self' with (collect_declared post
    (Sheet.set_regions s1 (<[rd_name region:=r]> (Sheet.regions s1)))).2
    by by rewrite Hrun.
  rewrite collect_declared_other_name by done.
  simpl. by rewrite lookup_insert_eq.
Qed.

End collect_region.

(** [collect_regions] stops at the first declared region that does not
    build. *)
Lemma collect_regions_stops (self : Sheet.t)
    (pre : list (SubsheetDescriptor * RegionDescriptor))
    (sheet : SubsheetDescriptor) (region : RegionDescriptor)
    (post : list (SubsheetDescriptor * RegionDescriptor)) (e : error) :
  declared (Sheet.config self) = pre ++ (sheet, region) :: post →
  Forall (λ p, is_ok (builds self p) = true) pre →
  builds self (sheet, region) = Raise e →
  Sheet.collect_regions self = (Raise e, (collect_declared pre self).2) ∧
  collect_declared pre self = (Ok (), (collect_declared pre self).2).
Proof.
  intros Hdecl Hpre Hbad. rewrite collect_regions_declared, Hdecl.
  split; [by apply collect_declared_stops|].
  pose proof (collect_declared_all_build _ _ Hpre) as Hok.
  destruct (collect_declared pre self) as [o s1]. simpl in *. by subst o.
Qed.

(** ** The region mapping of a sheet *)

(** C6, as amended: [collect_regions] is not transactional at the region
    level. When the descriptors before some declared region all build and
    that region's fetch or transform raises, [collect_regions] raises that
    error and processes nothing further: it leaves the sheet exactly as the
    visit of the descriptors before the failing one left it, so a region
    built before the failure is still returned by [get_region] under its
    name unless a later descriptor before the failure carries the same
    name and has overwritten it. *)
Theorem C6_collect_regions_keeps_built_regions
    (self : Sheet.t) (pre : list (SubsheetDescriptor * RegionDescriptor))
    (sheet : SubsheetDescriptor) (region : RegionDescriptor)
    (post : list (SubsheetDescriptor * RegionDescriptor)) (e : error) :
  declared (Sheet.config self) = pre ++ (sheet, region) :: post →
  Forall (λ p, is_ok (builds self p) = true) pre →
  builds self (sheet, region) = Raise e →
  ∃ self',
    Sheet.collect_regions self = (Raise e, self') ∧
    collect_declared pre self = (Ok (), self') ∧
    ∀ before earlier_sheet earlier after,
      pre = before ++ (earlier_sheet, earlier) :: after →
      Forall (λ p, rd_name p.2 ≠ rd_name earlier) after →
      ∃ region_object,
        builds self (earlier_sheet, earlier) = Ok region_object ∧
        Sheet.get_region self' (rd_name earlier) = Ok region_object.
Proof.
  intros Hdecl Hpre Hbad.
  exists (collect_declared pre self).2.
  rewrite collect_regions_declared, Hdecl.
  split; [by apply collect_declared_stops|].
  pose proof (collect_declared_all_build _ _ Hpre) as Hok.
  destruct (collect_declared pre self) as [o self'] eqn:Hrun.
  simpl in *. subst o. split; [done|].
  intros before earlier_sheet earlier after -> Hafter.
  destruct (collect_declared_last _ _ _ _ _ _ Hrun Hafter) as (r & Hb & Hr).
  exists r. split; [done|]. unfold Sheet.get_region. by rewrite Hr.
Qed.

Lemma C6_collect_regions_keeps_built_regions_witness :
  let self := sample_sheet [subsheet "Sheet1" [with_headers "R1"];
                            subsheet "Sheet3" [with_headers "R2"; with_headers "R3"]] in
  ∃ self' region_object,
    Sheet.collect_regions self = (Raise HttpError, self') ∧
    Sheet.get_region self' "R1" = Ok region_object ∧
    Region.full_name region_object = "Sheet1_R1".
Proof.
  intros self.
  destruct (C6_collect_regions_keeps_built_regions self
              [(subsheet "Sheet1" [with_headers "R1"], with_headers "R1")]
              (subsheet "Sheet3" [with_headers "R2"; with_headers "R3"])
              (with_headers "R2")
              [(subsheet "Sheet3" [with_headers "R2"; with_headers "R3"],
                with_headers "R3")]
              HttpError)
    as (self' & Hrun & _ & Hkept).
  - reflexivity.
  - repeat constructor.
  - reflexivity.
  - destruct (Hkept [] (subsheet "Sheet1" [with_headers "R1"]) (with_headers "R1") [])
      as (r & Hb & Hr); [reflexivity | constructor |].
    exists self', r. split; [exact Hrun|]. split; [exact Hr|].
    vm_compute in Hb. injection Hb as <-. reflexivity.
Defined.

(** C6, as stated, fails when two subsheets before the failing region
    declare a region of one name: both are built, the third fetch fails,
    and the region built from the first subsheet is registered under no
    name, the second having taken its key. *)
Lemma C6_counterexample :
  let first := subsheet "Sheet1" [with_headers "R"] in
  let second := subsheet "Sheet2" [without_headers "R" (Some (Some ["x"; "y"]))] in
  let third := subsheet "Sheet3" [with_headers "R3"] in
  let self := sample_sheet [first; second; third] in
  let built :=
    Region.init "R" "Sheet1" "A1" "B2"
      (pd.mkDataFrame ["a"; "b"] [[Some "1"; Some "2"]; [Some "3"; Some "4"]]) in
  builds self (first, with_headers "R") = Ok built ∧
  is_ok (builds self (second, without_headers "R" (Some (Some ["x"; "y"])))) = true ∧
  (Sheet.collect_regions self).1 = Raise HttpError ∧
  ∀ name, Sheet.regions (Sheet.collect_regions self).2 !! name ≠ Some built.
Proof.
  intros first second third self built.
  split; [reflexivity|]. split; [reflexivity|]. split; [reflexivity|].
  intros name Hname.
  assert (Sheet.regions (Sheet.collect_regions self).2
          = {["R" := Region.init "R" "Sheet2" "A1" "B2"
                        (pd.mkDataFrame ["x"; "y"] [])]}) as Hregions
    by (vm_compute; reflexivity).
  rewrite Hregions in Hname.
  destruct (decide (name = "R")) as [->|Hne].
  - rewrite lookup_singleton_eq in Hname. discriminate Hname.
  - rewrite lookup_singleton_ne in Hname by done. discriminate Hname.
Qed.

(** C7: a built region is keyed into the sheet's mapping by its bare
    [region_name], not by its [full_name]. After a [collect_regions] that
    ends normally, the name of a declared region holds the region built
    from the last descriptor carrying that name, so a same-named region of
    an earlier subsheet has been overwritten by it. *)
Theorem C7_regions_keyed_by_region_name
    (self self' : Sheet.t) (pre : list (SubsheetDescriptor * RegionDescriptor))
    (sheet : SubsheetDescriptor) (region : RegionDescriptor)
    (post : list (SubsheetDescriptor * RegionDescriptor)) :
  Sheet.collect_regions self = (Ok (), self') →
  declared (Sheet.config self) = pre ++ (sheet, region) :: post →
  Forall (λ p, rd_name p.2 ≠ rd_name region) post →
  ∃ region_object,
    builds self (sheet, region) = Ok region_object ∧
    Sheet.regions self' !! Region.region_name region_object = Some region_object ∧
    Region.region_name region_object = rd_name region ∧
    Region.full_name region_object = sh_name sheet +:+ "_" +:+ rd_name region ∧
    ∀ earlier_sheet earlier,
      (earlier_sheet, earlier) ∈ pre →
      rd_name earlier = rd_name region →
      Sheet.get_region self' (rd_name earlier) = Ok region_object.
Proof.
  intros Hrun Hdecl Hpost.
  rewrite collect_regions_declared, Hdecl in Hrun.
  destruct (collect_declared_last _ _ _ _ _ _ Hrun Hpost) as (r & Hb & Hr).
  exists r. split; [done|].
  assert (Region.region_name r = rd_name region ∧
          Region.full_name r = sh_name sheet +:+ "_" +:+ rd_name region)
    as [Hname Hfull].
  { unfold builds, Sheet.build_region in Hb. simpl in Hb.
    destruct (Sheet.execute_sheets_call _ _ _ _ _); [|done]. simpl in Hb.
    destruct (if rd_contains_headers region then _ else _); [|done].
    simpl in Hb. by injection Hb as <-. }
  rewrite Hname. repeat split; [done..|].
  intros earlier_sheet earlier _ ->. unfold Sheet.get_region. by rewrite Hr.
Qed.

Lemma C7_regions_keyed_by_region_name_witness :
  let first := subsheet "Sheet1" [with_headers "R"] in
  let second := subsheet "Sheet2" [without_headers "R" (Some (Some ["x"; "y"]))] in
  let self := sample_sheet [first; second] in
  ∃ self' region_object,
    Sheet.collect_regions self = (Ok (), self') ∧
    Sheet.get_region self' "R" = Ok region_object ∧
    Region.full_name region_object = "Sheet2_R".
Proof.
  intros first second self.
  destruct (C7_regions_keyed_by_region_name self (Sheet.collect_regions self).2
              [(first, with_headers "R")] second
              (without_headers "R" (Some (Some ["x"; "y"]))) [])
    as (r & _ & _ & _ & Hfull & Hover).
  - reflexivity.
  - reflexivity.
  - constructor.
  - exists (Sheet.collect_regions self).2, r.
    split; [reflexivity|]. split; [|exact Hfull].
    apply (Hover first (with_headers "R")); [|reflexivity].
    apply list_elem_of_here.
Defined.

(** C2, as amended: when [collect_regions] reaches a region descriptor with
    [contains_headers] true whose fetch returns no rows, it raises the
    error of taking the header row ([IndexError]) and registers nothing for
    that descriptor: the sheet is left as the descriptors before it left
    it, so the region's name is unregistered unless it was registered
    before or an earlier descriptor of the source carries the same name. *)
Theorem C2_empty_fetch_registers_nothing
    (self : Sheet.t) (pre : list (SubsheetDescriptor * RegionDescriptor))
    (sheet : SubsheetDescriptor) (region : RegionDescriptor)
    (post : list (SubsheetDescriptor * RegionDescriptor)) :
  declared (Sheet.config self) = pre ++ (sheet, region) :: post →
  Forall (λ p, is_ok (builds self p) = true) pre →
  rd_contains_headers region = true →
  Sheet.execute_sheets_call (Sheet.api self) (cfg_source_id (Sheet.config self))
    (sh_name sheet) (rd_start region) (rd_end region) = Ok [] →
  ∃ self',
    Sheet.collect_regions self = (Raise IndexError, self') ∧
    collect_declared pre self = (Ok (), self') ∧
    (Sheet.regions self !! rd_name region = None →
     Forall (λ p, rd_name p.2 ≠ rd_name region) pre →
     Sheet.regions self' !! rd_name region = None).
Proof.
  intros Hdecl Hpre Hheaders Hfetch.
  assert (builds self (sheet, region) = Raise IndexError) as Hbad.
  { unfold builds, Sheet.build_region. simpl. by rewrite Hfetch, Hheaders. }
  destruct (collect_regions_stops _ _ _ _ _ _ Hdecl Hpre Hbad) as (Hrun & Hstate).
  exists (collect_declared pre self).2. split; [done|]. split; [done|].
  intros Hnone Hnames. by rewrite collect_declared_other_name.
Qed.

Lemma C2_empty_fetch_registers_nothing_witness :
  let first := subsheet "Sheet1" [with_headers "R1"] in
  let second := subsheet "Sheet2" [with_headers "R2"] in
  let self := sample_sheet [first; second] in
  ∃ self',
    Sheet.collect_regions self = (Raise IndexError, self') ∧
    Sheet.regions self' !! "R2" = None.
Proof.
  intros first second self.
  destruct (C2_empty_fetch_registers_nothing self
              [(first, with_headers "R1")] second (with_headers "R2") [])
    as (self' & Hrun & _ & Hnone).
  - reflexivity.
  - repeat constructor.
  - reflexivity.
  - reflexivity.
  - exists self'. split; [exact Hrun|].
    apply Hnone; [reflexivity|].
    constructor; [|constructor]. simpl. discriminate.
Defined.

(** C2, as stated, fails when an earlier subsheet declares a region of the
    same name: the second [R] is fetched empty and [collect_regions] raises,
    yet a region is registered under [R], the one of the first subsheet. *)
Lemma C2_counterexample :
  let first := subsheet "Sheet1" [with_headers "R"] in
  let second := subsheet "Sheet2" [with_headers "R"] in
  let self := sample_sheet [first; second] in
  rd_contains_headers (with_headers "R") = true ∧
  Sheet.execute_sheets_call (Sheet.api self) "S1" "Sheet2" "A1" "B2" = Ok [] ∧
  ∃ self' region_object,
    Sheet.collect_regions self = (Raise IndexError, self') ∧
    Sheet.regions self' !! "R" = Some region_object ∧
    Region.full_name region_object = "Sheet1_R".
Proof.
  intros first second self. split; [reflexivity|]. split; [reflexivity|].
  eexists _, _. split; [reflexivity|]. split; reflexivity.
Qed.

(** ** Frames *)

Section frames.
Implicit Types (data : list (list string)) (columns row : list string).

Lemma width_ge data row : row ∈ data → length row ≤ pd.width data.
Proof.
  induction data as [|r data IH]; intros Hrow; [by apply elem_of_nil in Hrow|].
  simpl. apply elem_of_cons in Hrow as [->|Hrow]; [lia|].
  specialize (IH Hrow). lia.
Qed.

Lemma fill_lookup (k j : nat) row :
  length row ≤ k → j < k → pd.fill k row !! j = Some (row !! j).
Proof.
  intros Hlen Hj. unfold pd.fill.
  destruct (decide (j < length row)) as [Hin|Hout].
  - rewrite lookup_app_l by by rewrite length_fmap.
    rewrite list_lookup_fmap.
    destruct (lookup_lt_is_Some_2 row j Hin) as [v ->]. done.
  - rewrite lookup_app_r by (rewrite length_fmap; lia).
    rewrite length_fmap, (lookup_ge_None_2 row j) by lia.
    apply lookup_replicate_2. lia.
Qed.

Lemma from_rows_ok data columns :
  data = [] ∨ pd.width data = length columns →
  pd.from_rows data columns =
    Ok (pd.mkDataFrame columns (pd.fill (length columns) <$> data)).
Proof.
  intros [->|Hwidth]; [done|]. unfold pd.from_rows.
  destruct data; [done|]. by rewrite decide_True.
Qed.

Lemma from_rows_inv data columns df :
  pd.from_rows data columns = Ok df →
  (data = [] ∨ pd.width data = length columns) ∧
  df = pd.mkDataFrame columns (pd.fill (length columns) <$> data).
Proof.
  unfold pd.from_rows. destruct data as [|row data].
  - intros [= <-]. auto.
  - destruct (decide _) as [Hwidth|]; [|done]. intros [= <-]. auto.
Qed.

(** A frame that pandas builds from rows is the table of these rows. *)
Lemma from_rows_table data columns df :
  pd.from_rows data columns = Ok df → table_of columns data df.
Proof.
  intros Hdf. apply from_rows_inv in Hdf as [Hshape ->].
  split; [done|]. simpl. split; [by rewrite length_fmap|].
  intros i row Hrow.
  assert (length row ≤ length columns) as Hlen.
  { destruct Hshape as [->|<-]; [done|].
    apply width_ge. by eapply list_elem_of_lookup_2. }
  split; [done|]. exists (pd.fill (length columns) row).
  split; [by rewrite list_lookup_fmap, Hrow|].
  intros j c Hc. apply fill_lookup; [done|]. by eapply lookup_lt_Some.
Qed.

End frames.

(** ** Headers *)

(** C4, as amended: for a region descriptor with [contains_headers] true
    and a non-empty fetch result that has no data rows or whose longest
    data row has as many cells as the first row, a region is built whose
    table has the first fetched row as column names and one row less than
    were fetched; row [i] holds under column [j] the [j]-th cell of the
    [(i+1)]-th fetched row, and nothing where that row is shorter. *)
Theorem C4_headers_in_data
    (api : sheets_api) (source_id : string) (sheet : SubsheetDescriptor)
    (region : RegionDescriptor) (first : list string) (rest : list (list string)) :
  rd_contains_headers region = true →
  Sheet.execute_sheets_call api source_id (sh_name sheet)
    (rd_start region) (rd_end region) = Ok (first :: rest) →
  rest = [] ∨ pd.width rest = length first →
  ∃ region_object,
    Sheet.build_region api source_id sheet region = Ok region_object ∧
    length (pd.rows (Region.data region_object)) = length (first :: rest) - 1 ∧
    table_of first rest (Region.data region_object).
Proof.
  intros Hheaders Hfetch Hshape.
  unfold Sheet.build_region. rewrite Hfetch, Hheaders. simpl.
  rewrite drop_0, (from_rows_ok _ _ Hshape). simpl.
  eexists. split; [done|]. simpl.
  assert (table_of first rest
            (pd.mkDataFrame first (pd.fill (length first) <$> rest))) as Htable.
  { apply from_rows_table. by apply from_rows_ok. }
  split; [|done]. destruct Htable as (_ & Hlen & _). simpl in *. lia.
Qed.

Lemma C4_headers_in_data_witness :
  let sheet := subsheet "Sheet1" [with_headers "R1"] in
  ∃ region_object,
    Sheet.build_region sample_api "S1" sheet (with_headers "R1") = Ok region_object ∧
    length (pd.rows (Region.data region_object)) = 2 ∧
    table_of ["a"; "b"] [["1"; "2"]; ["3"; "4"]] (Region.data region_object).
Proof.
  intros sheet.
  apply (C4_headers_in_data sample_api "S1" sheet (with_headers "R1")
           ["a"; "b"] [["1"; "2"]; ["3"; "4"]]).
  - reflexivity.
  - reflexivity.
  - right. reflexivity.
Defined.

(** C4, as stated, fails on a fetch result with a data row longer than the
    first row: pandas rejects the rows and no region is built. *)
Lemma C4_counterexample :
  let sheet := subsheet "Wide" [with_headers "R1"] in
  rd_contains_headers (with_headers "R1") = true ∧
  Sheet.execute_sheets_call sample_api "S1" "Wide" "A1" "B2"
    = Ok [["a"; "b"]; ["1"; "2"; "3"]] ∧
  Sheet.build_region sample_api "S1" sheet (with_headers "R1") = Raise ValueError ∧
  ¬ ∃ region_object,
      Sheet.build_region sample_api "S1" sheet (with_headers "R1") = Ok region_object ∧
      table_of ["a"; "b"] [["1"; "2"; "3"]] (Region.data region_object).
Proof.
  intros sheet. split; [reflexivity|]. split; [reflexivity|].
  split; [reflexivity|]. intros (r & Hr & _). discriminate Hr.
Qed.

(** C5, as amended: for a region descriptor with [contains_headers] false,
    a non-empty [headers] list and a fetch result that is empty or whose
    longest row has as many cells as there are headers, a region is built
    whose table has the descriptor's headers as column names and as many
    rows as were fetched, the first fetched row being row 0 of the table:
    no fetched row is consumed as a header. *)
Theorem C5_headers_in_config
    (api : sheets_api) (source_id : string) (sheet : SubsheetDescriptor)
    (region : RegionDescriptor) (header : string) (headers : list string)
    (data : list (list string)) :
  rd_contains_headers region = false →
  rd_headers region = Some (Some (header :: headers)) →
  Sheet.execute_sheets_call api source_id (sh_name sheet)
    (rd_start region) (rd_end region) = Ok data →
  data = [] ∨ pd.width data = length (header :: headers) →
  ∃ region_object,
    Sheet.build_region api source_id sheet region = Ok region_object ∧
    length (pd.rows (Region.data region_object)) = length data ∧
    table_of (header :: headers) data (Region.data region_object).
Proof.
  intros Hheaders Hlist Hfetch Hshape.
  unfold Sheet.build_region, subscript_headers.
  rewrite Hfetch, Hheaders, Hlist. simpl.
  pose proof (from_rows_ok _ _ Hshape) as Hdf. simpl in Hdf. rewrite Hdf. simpl.
  eexists. split; [done|]. simpl.
  pose proof (from_rows_table _ _ _ Hdf) as Htable.
  split; [|done]. by destruct Htable as (_ & Hlen & _).
Qed.

Lemma C5_headers_in_config_witness :
  let region := without_headers "R1" (Some (Some ["x"; "y"])) in
  let sheet := subsheet "Sheet1" [region] in
  ∃ region_object,
    Sheet.build_region sample_api "S1" sheet region = Ok region_object ∧
    length (pd.rows (Region.data region_object)) = 3 ∧
    table_of ["x"; "y"] [["a"; "b"]; ["1"; "2"]; ["3"; "4"]]
      (Region.data region_object).
Proof.
  intros region sheet.
  apply (C5_headers_in_config sample_api "S1" sheet region "x" ["y"]
           [["a"; "b"]; ["1"; "2"]; ["3"; "4"]]).
  - reflexivity.
  - reflexivity.
  - reflexivity.
  - right. reflexivity.
Defined.

(** C5, as stated, fails when the headers list is longer than the fetched
    rows: pandas rejects the rows and no region is built. *)
Lemma C5_counterexample :
  let region := without_headers "R1" (Some (Some ["x"; "y"; "z"])) in
  let sheet := subsheet "Sheet1" [region] in
  rd_contains_headers region = false ∧
  rd_headers region = Some (Some ["x"; "y"; "z"]) ∧
  Sheet.execute_sheets_call sample_api "S1" "Sheet1" "A1" "B2"
    = Ok [["a"; "b"]; ["1"; "2"]; ["3"; "4"]] ∧
  Sheet.build_region sample_api "S1" sheet region = Raise ValueError ∧
  ¬ ∃ region_object,
      Sheet.build_region sample_api "S1" sheet region = Ok region_object ∧
      table_of ["x"; "y"; "z"] [["a"; "b"]; ["1"; "2"]; ["3"; "4"]]
        (Region.data region_object).
Proof.
  intros region sheet. split; [reflexivity|]. split; [reflexivity|].
  split; [reflexivity|]. split; [reflexivity|].
  intros (r & Hr & _). discriminate Hr.
Qed.

(** C8, as amended: for a region descriptor with [contains_headers] false
    whose fetch succeeds, an empty or null [headers] entry makes the header
    check of [to_dataframe] raise [Exception("No passed table headers")],
    and an absent [headers] key makes the subscript [region["headers"]]
    raise [KeyError] before the header check is reached; either way no
    region is built and the sheet's mapping is left as it was. *)
Theorem C8_missing_headers_raise
    (self : Sheet.t) (sheet : SubsheetDescriptor) (region : RegionDescriptor)
    (data : list (list string)) :
  rd_contains_headers region = false →
  Sheet.execute_sheets_call (Sheet.api self) (cfg_source_id (Sheet.config self))
    (sh_name sheet) (rd_start region) (rd_end region) = Ok data →
  rd_headers region = None ∨ rd_headers region = Some None ∨
    rd_headers region = Some (Some []) →
  builds self (sheet, region) = Raise (missing_headers_error region) ∧
  Sheet.collect_region sheet region self = (Raise (missing_headers_error region), self) ∧
  (rd_headers region = None → missing_headers_error region = KeyError "headers") ∧
  (rd_headers region ≠ None →
   missing_headers_error region = Exception "No passed table headers" ∧
   Sheet.to_dataframe data false (default None (rd_headers region))
   = Raise (Exception "No passed table headers")).
Proof.
  intros Hheaders Hfetch Hmissing.
  assert (builds self (sheet, region) = Raise (missing_headers_error region)) as Hb.
  { unfold builds, Sheet.build_region, subscript_headers, missing_headers_error.
    simpl. rewrite Hfetch, Hheaders. simpl.
    by destruct Hmissing as [->|[->| ->]]. }
  split; [done|]. split; [by apply collect_region_raise|].
  unfold missing_headers_error.
  split; [by intros ->|]. intros Hpresent.
  by destruct Hmissing as [?|[->| ->]].
Qed.

Lemma C8_missing_headers_raise_witness :
  let region := without_headers "R1" (Some (Some [])) in
  let sheet := subsheet "Sheet1" [region] in
  let self := sample_sheet [sheet] in
  Sheet.collect_region sheet region self
  = (Raise (Exception "No passed table headers"), self).
Proof.
  intros region sheet self.
  destruct (C8_missing_headers_raise self sheet region
              [["a"; "b"]; ["1"; "2"]; ["3"; "4"]])
    as (_ & Hrun & _).
  - reflexivity.
  - reflexivity.
  - right. right. reflexivity.
  - exact Hrun.
Defined.

(** C8, as stated, fails on a descriptor whose [headers] key is absent: the
    error is the [KeyError] of the subscript, not the one of the header
    check. *)
Lemma C8_counterexample :
  let region := without_headers "R1" None in
  let sheet := subsheet "Sheet1" [region] in
  rd_contains_headers region = false ∧
  rd_headers region = None ∧
  Sheet.build_region sample_api "S1" sheet region = Raise (KeyError "headers") ∧
  Sheet.build_region sample_api "S1" sheet region
    ≠ Raise (Exception "No passed table headers").
Proof.
  intros region sheet. split; [reflexivity|]. split; [reflexivity|].
  split; [reflexivity|]. discriminate.
Qed.

(** ** Validation *)

Lemma check_config_schema_mapping (config : SourceDescriptor) :
  Sheet.check_config_schema (YDict config) = Ok true.
Proof. done. Qed.

(** C1: construction is meant to reject a descriptor that violates the
    configuration shape. It does not: [check_config_schema] accepts every
    mapping, so a descriptor with [contains_headers] false and no [headers]
    is constructed into a sheet, and the missing key only shows when
    [collect_regions] subscripts it, after the fetch. *)
Theorem C1_missing_headers_accepted :
  let region := without_headers "R1" None in
  let config := sample_config [subsheet "Sheet1" [region]] in
  Sheet.check_config_schema (YDict config) = Ok true ∧
  Sheet.init (YDict config) sample_api = Ok (sample_sheet [subsheet "Sheet1" [region]]) ∧
  Sheet.execute_sheets_call sample_api "S1" "Sheet1" "A1" "B2"
    = Ok [["a"; "b"]; ["1"; "2"]; ["3"; "4"]] ∧
  Sheet.collect_regions (sample_sheet [subsheet "Sheet1" [region]])
    = (Raise (KeyError "headers"), sample_sheet [subsheet "Sheet1" [region]]).
Proof. repeat split. Qed.

(** ** The registry of a collector *)

Section collect_files.
Context (api : sheets_api).
Implicit Types (self : SheetCollector.t) (file : yaml_file)
  (files : list yaml_file).

Lemma collect_file_ok self file sheet_obj :
  SheetCollector.load_sheet api file = Ok sheet_obj →
  SheetCollector.collect_file api file self =
    (Ok (), SheetCollector.set_sheets_data self
              (<[stem file := sheet_obj]> (SheetCollector.sheets_data self))).
Proof. unfold SheetCollector.collect_file. by intros ->. Qed.

Lemma collect_file_raise self file e :
  SheetCollector.load_sheet api file = Raise e →
  SheetCollector.collect_file api file self = (Raise e, self).
Proof. unfold SheetCollector.collect_file. by intros ->. Qed.

Lemma collect_file_other_stem self file key :
  stem file ≠ key →
  SheetCollector.sheets_data (SheetCollector.collect_file api file self).2 !! key
  = SheetCollector.sheets_data self !! key.
Proof.
  intros Hkey. unfold SheetCollector.collect_file.
  destruct (SheetCollector.load_sheet api file); simpl; [|done].
  by rewrite lookup_insert_ne.
Qed.

Lemma collect_file_dom self file :
  dom (SheetCollector.sheets_data self)
  ⊆ dom (SheetCollector.sheets_data (SheetCollector.collect_file api file self).2).
Proof.
  unfold SheetCollector.collect_file.
  destruct (SheetCollector.load_sheet api file); simpl; [|done].
  rewrite dom_insert_L. set_solver.
Qed.

Lemma collect_file_sheets self file :
  SheetCollector.sheets (SheetCollector.collect_file api file self).2
  = SheetCollector.sheets self ∧
  SheetCollector.config_dir (SheetCollector.collect_file api file self).2
  = SheetCollector.config_dir self.
Proof.
  unfold SheetCollector.collect_file.
  by destruct (SheetCollector.load_sheet api file).
Qed.

(** Entries under stems that none of the processed files carries are as
    they were, whether the loop ends normally or not. *)
Lemma files_other_stem files self key :
  key ∉ stem <$> files →
  SheetCollector.sheets_data
    (for_each (SheetCollector.collect_file api) files self).2 !! key
  = SheetCollector.sheets_data self !! key.
Proof.
  intros Hkey.
  apply (for_each_preserves _
    (λ s, SheetCollector.sheets_data s !! key
          = SheetCollector.sheets_data self !! key)); [|done].
  intros file s Hfile Hs. rewrite <- Hs. apply collect_file_other_stem.
  intros <-. apply Hkey. apply list_elem_of_fmap. by exists file.
Qed.

Lemma files_dom files self :
  dom (SheetCollector.sheets_data self)
  ⊆ dom (SheetCollector.sheets_data
           (for_each (SheetCollector.collect_file api) files self).2).
Proof.
  apply (for_each_preserves _
    (λ s, dom (SheetCollector.sheets_data self)
          ⊆ dom (SheetCollector.sheets_data s))); [|done].
  intros file s _ Hs. etrans; [exact Hs|]. apply collect_file_dom.
Qed.

(** When every file loads and extracts, the loop ends normally. *)
Lemma files_all_load files self :
  Forall (λ f, is_ok (SheetCollector.load_sheet api f) = true) files →
  (for_each (SheetCollector.collect_file api) files self).1 = Ok ().
Proof.
  revert self. induction files as [|file files IH]; intros self Hl; [done|].
  inversion Hl as [|? ? Hf Hl']; subst.
  destruct (SheetCollector.load_sheet api file) as [sheet_obj|e] eqn:Hload; [|done].
  rewrite (for_each_cons_ok _ _ _ _ _ (collect_file_ok self _ _ Hload)).
  by apply IH.
Qed.

(** The loop stops at the first file that fails, and leaves the collector
    as the files before it left it. *)
Lemma files_stop pre file post self e :
  Forall (λ f, is_ok (SheetCollector.load_sheet api f) = true) pre →
  SheetCollector.load_sheet api file = Raise e →
  for_each (SheetCollector.collect_file api) (pre ++ file :: post) self
  = (Raise e, (for_each (SheetCollector.collect_file api) pre self).2) ∧
  for_each (SheetCollector.collect_file api) pre self
  = (Ok (), (for_each (SheetCollector.collect_file api) pre self).2).
Proof.
  intros Hpre Hload. rewrite for_each_app.
  pose proof (files_all_load _ self Hpre) as Hok.
  destruct (for_each (SheetCollector.collect_file api) pre self) as [o s1].
  cbn [fst snd] in *. subst o.
  by rewrite (for_each_cons_raise _ _ _ _ _ _ (collect_file_raise s1 _ _ Hload)).
Qed.

(** After the files [before ++ file :: after] are processed normally, the
    stem of [file] holds its sheet unless a later file carries the stem. *)
Lemma files_last before file after self self' :
  for_each (SheetCollector.collect_file api) (before ++ file :: after) self
  = (Ok (), self') →
  stem file ∉ stem <$> after →
  ∃ sheet_obj,
    SheetCollector.load_sheet api file = Ok sheet_obj ∧
    SheetCollector.sheets_data self' !! stem file = Some sheet_obj.
Proof.
  intros Hrun Hafter. rewrite for_each_app in Hrun.
  destruct (for_each (SheetCollector.collect_file api) before self)
    as [[[]|e] s1]; [|done].
  destruct (SheetCollector.load_sheet api file) as [sheet_obj|e] eqn:Hload.
  - rewrite (for_each_cons_ok _ _ _ _ _ (collect_file_ok s1 _ _ Hload)) in Hrun.
    exists sheet_obj. split; [done|].
    replace self' with
      (for_each (SheetCollector.collect_file api) after
         (SheetCollector.set_sheets_data s1
            (<[stem file:=sheet_obj]> (SheetCollector.sheets_data s1)))).2
      by by rewrite Hrun.
    rewrite files_other_stem by done. simpl. by rewrite lookup_insert_eq.
  - by rewrite (for_each_cons_raise _ _ _ _ _ _ (collect_file_raise s1 _ _ Hload)) in Hrun.
Qed.

End collect_files.

(** C3, as amended: [collect_files] aborts at the first configuration file
    whose parsing, validation or extraction fails. It raises that error and
    processes no later file, and it registers nothing from the failing
    file: its key holds what it held when the file was reached, never a
    partly filled sheet. The sheets of the files processed before it in the
    same call stay registered. *)
Theorem C3_collect_files_stops_at_failing_file
    (tree : string → list yaml_file) (self : SheetCollector.t)
    (api : sheets_api) (pre : list yaml_file) (file : yaml_file)
    (post : list yaml_file) (e : error) :
  SheetCollector.sheets self = Some api →
  SheetCollector.get_yaml_files tree (SheetCollector.config_dir self)
    = pre ++ file :: post →
  Forall (λ f, is_ok (SheetCollector.load_sheet api f) = true) pre →
  SheetCollector.load_sheet api file = Raise e →
  ∃ self',
    SheetCollector.collect_files tree self = (Raise e, self') ∧
    for_each (SheetCollector.collect_file api) pre self = (Ok (), self') ∧
    (stem file ∉ stem <$> pre →
     SheetCollector.sheets_data self' !! stem file
     = SheetCollector.sheets_data self !! stem file) ∧
    ∀ before earlier after,
      pre = before ++ earlier :: after →
      stem earlier ∉ stem <$> after →
      ∃ sheet_obj,
        SheetCollector.load_sheet api earlier = Ok sheet_obj ∧
        SheetCollector.sheets_data self' !! stem earlier = Some sheet_obj.
Proof.
  intros Hapi Hfiles Hpre Hload.
  exists (for_each (SheetCollector.collect_file api) pre self).2.
  unfold SheetCollector.collect_files. rewrite Hapi, Hfiles.
  destruct (files_stop api pre file post self e Hpre Hload) as [Hrun Hstate].
  split; [done|]. split; [done|].
  split; [intros Hfresh; by apply files_other_stem|].
  intros before earlier after -> Hafter.
  by apply (files_last api before earlier after self).
Qed.

Lemma C3_collect_files_stops_at_failing_file_witness :
  let tree := λ _ : string, [good_file "file1"; bad_file "file2"; good_file "file3"] in
  ∃ self' sheet_obj,
    SheetCollector.collect_files tree (sample_collector ∅) = (Raise YAMLError, self') ∧
    SheetCollector.sheets_data self' !! "file2" = None ∧
    SheetCollector.sheets_data self' !! "file1" = Some sheet_obj.
Proof.
  intros tree.
  destruct (C3_collect_files_stops_at_failing_file tree (sample_collector ∅)
              sample_api [good_file "file1"] (bad_file "file2")
              [good_file "file3"] YAMLError)
    as (self' & Hrun & _ & Hkey & Hkept).
  - reflexivity.
  - reflexivity.
  - repeat constructor.
  - reflexivity.
  - destruct (Hkept [] (good_file "file1") []) as (sheet_obj & _ & Hsheet);
      [reflexivity | apply not_elem_of_nil |].
    exists self', sheet_obj. split; [exact Hrun|]. split; [|exact Hsheet].
    simpl in Hkey. rewrite Hkey; [reflexivity|].
    intros Hin. apply list_elem_of_singleton in Hin. discriminate Hin.
Defined.

(** C3, as stated, fails when a file before the failing one was processed:
    the call raises and the registry, empty before the call, holds the
    sheet of the earlier file. *)
Lemma C3_counterexample :
  let tree := λ _ : string, [good_file "file1"; bad_file "file2"] in
  SheetCollector.load_sheet sample_api (bad_file "file2") = Raise YAMLError ∧
  ∃ self' sheet_obj,
    SheetCollector.collect_files tree (sample_collector ∅) = (Raise YAMLError, self') ∧
    SheetCollector.sheets_data self' !! "file1" = Some sheet_obj.
Proof.
  intros tree. split; [reflexivity|].
  eexists _, _. split; reflexivity.
Qed.

(** C10: the registry is never cleared. Whether it ends normally or
    raises, a call of [collect_files] leaves every entry whose key is not
    the stem of a configuration file it discovers as it was, and every key
    registered before the call is registered after it. *)
Theorem C10_registry_never_cleared
    (tree : string → list yaml_file) (self : SheetCollector.t) :
  let self' := (SheetCollector.collect_files tree self).2 in
  (∀ key,
     key ∉ stem <$> SheetCollector.get_yaml_files tree (SheetCollector.config_dir self) →
     SheetCollector.sheets_data self' !! key = SheetCollector.sheets_data self !! key) ∧
  dom (SheetCollector.sheets_data self) ⊆ dom (SheetCollector.sheets_data self').
Proof.
  unfold SheetCollector.collect_files.
  destruct (SheetCollector.sheets self) as [api|]; simpl; [|done].
  split; [intros key Hkey; by apply files_other_stem | apply files_dom].
Qed.

Lemma C10_registry_never_cleared_witness :
  let tree := λ _ : string, [good_file "file2"; bad_file "file3"] in
  let earlier := sample_sheet [subsheet "Sheet1" [with_headers "R1"]] in
  let self := sample_collector {["file1" := earlier]} in
  SheetCollector.sheets_data (SheetCollector.collect_files tree self).2 !! "file1"
  = Some earlier.
Proof.
  intros tree earlier self.
  destruct (C10_registry_never_cleared tree self) as [Hframe _].
  rewrite (Hframe "file1"); [reflexivity|].
  simpl. intros Hin.
  apply elem_of_cons in Hin as [Hin|Hin]; [discriminate Hin|].
  apply list_elem_of_singleton in Hin. discriminate Hin.
Defined.

(** ** The JSON file of a region *)

Section row_dict.
Implicit Types (columns : list string) (cells : list pd.cell)
  (d : gmap string pd.cell).

Lemma row_dict_other columns cells d c :
  c ∉ columns → foldl pd.set_item d (zip columns cells) !! c = d !! c.
Proof.
  revert cells d. induction columns as [|c0 columns IH]; intros cells d Hc; [done|].
  destruct cells as [|x cells]; [done|]. simpl.
  apply not_elem_of_cons in Hc as [Hne Hc].
  rewrite IH by done. unfold pd.set_item. simpl. by rewrite lookup_insert_ne.
Qed.

Lemma row_dict_keys columns cells d c :
  is_Some (foldl pd.set_item d (zip columns cells) !! c) →
  c ∈ columns ∨ is_Some (d !! c).
Proof.
  revert cells d. induction columns as [|c0 columns IH]; intros cells d; [by right|].
  destruct cells as [|x cells]; [by right|]. simpl. intros Hc.
  destruct (IH _ _ Hc) as [Hin|Hd]; [left; by apply list_elem_of_further|].
  destruct (decide (c0 = c)) as [->|Hne]; [left; apply list_elem_of_here|].
  right. unfold pd.set_item in Hd. simpl in Hd. by rewrite lookup_insert_ne in Hd.
Qed.

Lemma row_dict_cell columns cells d j c v :
  NoDup columns → columns !! j = Some c → cells !! j = Some v →
  foldl pd.set_item d (zip columns cells) !! c = Some v.
Proof.
  revert cells d j. induction columns as [|c0 columns IH];
    intros cells d j Hnodup Hc Hv; [done|].
  destruct cells as [|x cells]; [done|]. simpl.
  apply NoDup_cons in Hnodup as [Hfresh Hnodup].
  destruct j as [|j]; simpl in *.
  - injection Hc as ->. injection Hv as ->.
    rewrite row_dict_other by done. unfold pd.set_item. simpl.
    by rewrite lookup_insert_eq.
  - by apply (IH _ _ j).
Qed.

End row_dict.

(** Where the file named by the full name opens, [region_to_json] writes
    it, and the file reads back as the dumped dictionary. *)
Lemma region_to_json_read (self : Region.t) (directory : string) (fs : files)
    (file : positive) :
  opens fs directory (Region.full_name self +:+ ".json") = Ok file →
  ∃ fs',
    Region.region_to_json self directory fs = (Ok (), fs') ∧
    read_json fs' directory (Region.full_name self +:+ ".json")
    = Ok (json.dump (Region.self_data self)).
Proof.
  intros Hopen. unfold Region.region_to_json, write_json. rewrite Hopen.
  eexists. split; [done|]. unfold read_json. simpl. rewrite Hopen. simpl.
  by rewrite lookup_insert_eq.
Qed.

Lemma dump_data_lookup (self : Region.t) (i : nat) :
  json.j_data (json.dump (Region.self_data self)) !! pretty i
  = pd.row_dict (pd.columns (Region.data self))
      <$> pd.rows (Region.data self) !! i.
Proof.
  unfold json.dump, Region.self_data, pd.to_dict_index. simpl.
  rewrite (lookup_kmap (pretty : nat → string)), lookup_map_seq_0.
  by rewrite list_lookup_fmap.
Qed.

(** C9, as amended: for every constructed region whose column names are
    pairwise distinct, and every directory in which the file
    [{full_name}.json] opens for writing, [region_to_json] writes that
    file, and the file reads back to the region's [region_name], its
    [full_name] (the parent subsheet name, ["_"], the region name),
    [start_range] and [end_range], and to the table keyed by row index,
    each row mapping every column name to the row's cell in that column. *)
Theorem C9_region_json_round_trip
    (region_name parent_sheet_name start_range end_range : string)
    (data : pd.DataFrame) (directory : string) (fs : files) (file : positive) :
  let self := Region.init region_name parent_sheet_name start_range end_range data in
  opens fs directory (Region.full_name self +:+ ".json") = Ok file →
  NoDup (pd.columns data) →
  ∃ fs' obj,
    Region.region_to_json self directory fs = (Ok (), fs') ∧
    Region.full_name self = parent_sheet_name +:+ "_" +:+ region_name ∧
    read_json fs' directory (Region.full_name self +:+ ".json") = Ok obj ∧
    reproduces self obj.
Proof.
  intros self Hopen Hnodup.
  destruct (region_to_json_read self directory fs file Hopen)
    as (fs' & Hrun & Hread).
  exists fs', (json.dump (Region.self_data self)).
  split; [done|]. split; [done|]. split; [done|].
  repeat split; try done.
  - intros [row Hrow].
    apply lookup_kmap_Some in Hrow as (i & -> & Hrow); [|apply _].
    exists i. split; [|done]. simpl in Hrow.
    unfold pd.to_dict_index in Hrow. rewrite lookup_map_seq_0 in Hrow.
    apply lookup_lt_Some in Hrow. by rewrite length_fmap in Hrow.
  - intros (i & Hi & ->). rewrite dump_data_lookup.
    destruct (lookup_lt_is_Some_2 _ _ Hi) as [cells ->]. by eexists.
  - intros i cells Hcells. rewrite dump_data_lookup, Hcells. simpl.
    eexists. split; [done|]. split.
    + intros c Hc. unfold pd.row_dict in Hc.
      destruct (row_dict_keys _ _ _ _ Hc) as [Hin|Hempty]; [done|].
      rewrite lookup_empty in Hempty. by destruct Hempty.
    + intros j c v Hc Hv. by apply (row_dict_cell _ _ _ j).
Qed.

Lemma C9_region_json_round_trip_witness :
  let data := pd.mkDataFrame ["a"; "b"] [[Some "1"; Some "2"]; [Some "3"; Some "4"]] in
  let self := Region.init "R1" "Sheet1" "A1" "B2" data in
  ∃ fs' obj,
    Region.region_to_json self "out" empty_files = (Ok (), fs') ∧
    read_json fs' "out" "Sheet1_R1.json" = Ok obj ∧
    reproduces self obj.
Proof.
  intros data self.
  destruct (C9_region_json_round_trip "R1" "Sheet1" "A1" "B2" data "out"
              empty_files (encode ("out", "Sheet1_R1.json")))
    as (fs' & obj & Hrun & _ & Hread & Hobj).
  - reflexivity.
  - apply NoDup_cons. split.
    + intros Hin. apply list_elem_of_singleton in Hin. discriminate Hin.
    + apply NoDup_singleton.
  - exists fs', obj. split; [exact Hrun|]. split; [exact Hread | exact Hobj].
Defined.

(** C9, as stated, fails on a region that has two columns of one name, as
    a fetched header row with a repeated cell makes it: the dictionary of a
    row keeps one entry per name, so the cell of the first of the two
    columns is not read back. *)
Lemma C9_counterexample :
  let data := pd.mkDataFrame ["a"; "a"] [[Some "1"; Some "2"]] in
  let self := Region.init "R1" "Sheet1" "A1" "B2" data in
  Sheet.to_dataframe [["a"; "a"]; ["1"; "2"]] true None = Ok data ∧
  ∃ fs' obj,
    Region.region_to_json self "out" empty_files = (Ok (), fs') ∧
    read_json fs' "out" "Sheet1_R1.json" = Ok obj ∧
    ¬ reproduces self obj.
Proof.
  intros data self. split; [reflexivity|].
  destruct (region_to_json_read self "out" empty_files
              (encode ("out", "Sheet1_R1.json")) eq_refl)
    as (fs' & Hrun & Hread).
  exists fs', (json.dump (Region.self_data self)).
  split; [exact Hrun|]. split; [exact Hread|].
  intros (_ & _ & _ & _ & _ & Hrows).
  destruct (Hrows 0 [Some "1"; Some "2"] eq_refl) as (row & Hrow & _ & Hcells).
  rewrite dump_data_lookup in Hrow. simpl in Hrow. injection Hrow as <-.
  specialize (Hcells 0 "a" (Some "1") eq_refl eq_refl).
  vm_compute in Hcells. discriminate Hcells.
Qed.

(** * Further properties of the region loop *)

Section region_loop.
Implicit Types (self : Sheet.t)
  (l : list (SubsheetDescriptor * RegionDescriptor)).

Lemma collect_declared_raise_not_all l self e self' :
  collect_declared l self = (Raise e, self') →
  ¬ Forall (λ p, is_ok (builds self p) = true) l.
Proof.
  intros Hrun Hall. apply collect_declared_all_build in Hall.
  by rewrite Hrun in Hall.
Qed.

Lemma collect_declared_dom l self self' :
  collect_declared l self = (Ok (), self') →
  dom (Sheet.regions self')
  = dom (Sheet.regions self) ∪ list_to_set ((λ p, rd_name p.2) <$> l).
Proof.
  revert self. induction l as [|[sheet region] l IH]; intros self Hrun.
  - injection Hrun as <-. simpl. by rewrite (right_id_L ∅ (∪)).
  - destruct (builds self (sheet, region)) as [r|e] eqn:Hb.
    + rewrite (collect_declared_cons_ok _ _ _ _ _ Hb) in Hrun.
      rewrite (IH _ Hrun). simpl. rewrite dom_insert_L.
      by rewrite (assoc_L (∪)), (comm_L (∪) (dom _) {[_]}).
    + by rewrite (collect_declared_cons_raise _ _ _ _ _ Hb) in Hrun.
Qed.

(** Whatever the visit registers comes from a visited descriptor of that
    name. *)
Lemma collect_declared_entries l self k r :
  Sheet.regions (collect_declared l self).2 !! k = Some r →
  Sheet.regions self !! k = Some r ∨
  ∃ p, p ∈ l ∧ rd_name p.2 = k ∧ builds self p = Ok r.
Proof.
  revert r.
  cut (Sheet.api (collect_declared l self).2 = Sheet.api self ∧
       Sheet.config (collect_declared l self).2 = Sheet.config self ∧
       ∀ r, Sheet.regions (collect_declared l self).2 !! k = Some r →
         Sheet.regions self !! k = Some r ∨
         ∃ p, p ∈ l ∧ rd_name p.2 = k ∧ builds self p = Ok r);
    [by intros (_ & _ & H)|].
  apply (for_each_preserves _
    (λ s, Sheet.api s = Sheet.api self ∧ Sheet.config s = Sheet.config self ∧
          ∀ r, Sheet.regions s !! k = Some r →
            Sheet.regions self !! k = Some r ∨
            ∃ p, p ∈ l ∧ rd_name p.2 = k ∧ builds self p = Ok r)); [|by auto].
  intros [sheet region] s Hp (Ha & Hc & Hs). simpl.
  assert (builds s (sheet, region) = builds self (sheet, region)) as Hbs
    by (unfold builds; by rewrite Ha, Hc).
  destruct (builds self (sheet, region)) as [r0|e] eqn:Hb.
  2: { by rewrite (collect_region_raise _ _ _ _ Hbs). }
  rewrite (collect_region_ok _ _ _ _ Hbs). simpl.
  split; [done|]. split; [done|]. intros r Hr.
  destruct (decide (rd_name region = k)) as [Hk|Hk].
  - rewrite Hk, lookup_insert_eq in Hr. injection Hr as <-.
    right. by exists (sheet, region).
  - rewrite lookup_insert_ne in Hr by done. by apply Hs.
Qed.

Lemma collect_declared_same_answers l (s1 s2 : Sheet.t) :
  Sheet.config s1 = Sheet.config s2 →
  Sheet.regions s1 = Sheet.regions s2 →
  Forall (λ p, builds s1 p = builds s2 p) l →
  (collect_declared l s1).1 = (collect_declared l s2).1 ∧
  Sheet.regions (collect_declared l s1).2 = Sheet.regions (collect_declared l s2).2.
Proof.
  revert s1 s2. induction l as [|[sheet region] l IH]; intros s1 s2 Hc Hr Hl; [done|].
  inversion Hl as [|? ? Hp Hl']; subst.
  destruct (builds s2 (sheet, region)) as [r|e] eqn:Hb.
  - rewrite (collect_declared_cons_ok _ _ _ _ _ Hp),
      (collect_declared_cons_ok _ _ _ _ _ Hb).
    apply IH; simpl; [done | by rewrite Hr |].
    eapply Forall_impl; [exact Hl'|]. intros p Hbp. unfold builds in *. done.
  - rewrite (collect_declared_cons_raise _ _ _ _ _ Hp),
      (collect_declared_cons_raise _ _ _ _ _ Hb). done.
Qed.

End region_loop.

(** X1: [collect_regions] ends normally exactly when every declared region
    builds: each fetch answers and each answer makes a frame. *)
Theorem collect_regions_ok_iff (self : Sheet.t) :
  (Sheet.collect_regions self).1 = Ok () ↔
  Forall (λ p, is_ok (builds self p) = true) (declared (Sheet.config self)).
Proof.
  rewrite collect_regions_declared. split.
  - intros Hok. apply Forall_forall. intros p Hp.
    destruct (collect_declared (declared (Sheet.config self)) self)
      as [o self'] eqn:Hrun. simpl in Hok. subst o.
    by eapply collect_declared_ok_builds.
  - apply collect_declared_all_build.
Qed.

Lemma collect_regions_ok_iff_witness :
  (Sheet.collect_regions
     (sample_sheet [subsheet "Sheet1" [with_headers "R1"]])).1 = Ok ().
Proof.
  apply (collect_regions_ok_iff
           (sample_sheet [subsheet "Sheet1" [with_headers "R1"]])).
  repeat constructor.
Defined.

(** X2: After a [collect_regions] that ends normally the registered names are
    those registered before and the names of all declared regions. *)
Theorem collect_regions_registers_declared_names (self self' : Sheet.t) :
  Sheet.collect_regions self = (Ok (), self') →
  dom (Sheet.regions self')
  = dom (Sheet.regions self)
    ∪ list_to_set ((λ p, rd_name p.2) <$> declared (Sheet.config self)).
Proof. rewrite collect_regions_declared. apply collect_declared_dom. Qed.

Lemma collect_regions_registers_declared_names_witness :
  let self := sample_sheet [subsheet "Sheet1" [with_headers "R1"; with_headers "R2"]] in
  dom (Sheet.regions (Sheet.collect_regions self).2) = {["R1"; "R2"]}.
Proof.
  intros self.
  rewrite (collect_regions_registers_declared_names self (Sheet.collect_regions self).2);
    [|reflexivity].
  simpl. set_solver.
Defined.

(** X3: Whether it ends normally or raises, [collect_regions] leaves under
    every name either the region that was there before or a region built
    from a declared descriptor of that name, whose [region_name] is the
    key. *)
Theorem collect_regions_entries (self : Sheet.t) (name : string)
    (region_object : Region.t) :
  Sheet.get_region (Sheet.collect_regions self).2 name = Ok region_object →
  Sheet.get_region self name = Ok region_object ∨
  ∃ sheet region,
    (sheet, region) ∈ declared (Sheet.config self) ∧
    rd_name region = name ∧
    builds self (sheet, region) = Ok region_object ∧
    Region.region_name region_object = name ∧
    Region.parent_sheet_name region_object = sh_name sheet.
Proof.
  unfold Sheet.get_region. rewrite collect_regions_declared.
  destruct (Sheet.regions (collect_declared _ self).2 !! name) as [r|] eqn:Hr;
    [|done].
  intros [= ->].
  destruct (collect_declared_entries _ _ _ _ Hr) as [Hold|([sheet region] & Hp & Hk & Hb)].
  - left. by rewrite Hold.
  - right. exists sheet, region. repeat split; try done.
    + unfold builds, Sheet.build_region in Hb. simpl in Hb.
      destruct (Sheet.execute_sheets_call _ _ _ _ _); [|done]. simpl in Hb.
      destruct (if rd_contains_headers region then _ else _); [|done].
      simpl in Hb. injection Hb as <-. done.
    + unfold builds, Sheet.build_region in Hb. simpl in Hb.
      destruct (Sheet.execute_sheets_call _ _ _ _ _); [|done]. simpl in Hb.
      destruct (if rd_contains_headers region then _ else _); [|done].
      simpl in Hb. injection Hb as <-. done.
Qed.

Lemma collect_regions_entries_witness :
  let sheet := subsheet "Sheet1" [with_headers "R1"] in
  let self := sample_sheet [sheet] in
  ∃ region_object,
    Sheet.get_region (Sheet.collect_regions self).2 "R1" = Ok region_object ∧
    Region.parent_sheet_name region_object = "Sheet1".
Proof.
  intros sheet self.
  destruct (Sheet.get_region (Sheet.collect_regions self).2 "R1")
    as [region_object|e] eqn:Hget; [|discriminate Hget].
  exists region_object. split; [reflexivity|].
  destruct (collect_regions_entries self "R1" region_object Hget)
    as [Hold|(sh & rd & Hin & _ & _ & _ & Hparent)].
  - discriminate Hold.
  - apply list_elem_of_singleton in Hin. injection Hin as -> _. exact Hparent.
Defined.

(** X4: [collect_regions] does not touch the entry of a name that no declared
    region carries: [get_region] answers for it as before, a [KeyError]
    included. *)
Theorem collect_regions_undeclared_name (self : Sheet.t) (name : string) :
  Forall (λ p, rd_name p.2 ≠ name) (declared (Sheet.config self)) →
  Sheet.get_region (Sheet.collect_regions self).2 name = Sheet.get_region self name.
Proof.
  intros Hname. unfold Sheet.get_region.
  by rewrite collect_regions_declared, collect_declared_other_name.
Qed.

Lemma collect_regions_undeclared_name_witness :
  let self := sample_sheet [subsheet "Sheet1" [with_headers "R1"]] in
  Sheet.get_region (Sheet.collect_regions self).2 "R9" = Raise (KeyError "R9").
Proof.
  intros self.
  rewrite (collect_regions_undeclared_name self "R9"); [reflexivity|].
  repeat constructor. simpl. discriminate.
Defined.

(** X5: [collect_regions] uses the remote service only for the declared
    ranges: two sheets of one configuration and one mapping whose services
    answer alike on every declared range end alike, with the same
    regions. *)
Theorem collect_regions_declared_ranges_only (s1 s2 : Sheet.t) :
  Sheet.config s1 = Sheet.config s2 →
  Sheet.regions s1 = Sheet.regions s2 →
  Forall (λ p,
    Sheet.execute_sheets_call (Sheet.api s1) (cfg_source_id (Sheet.config s1))
      (sh_name p.1) (rd_start p.2) (rd_end p.2)
    = Sheet.execute_sheets_call (Sheet.api s2) (cfg_source_id (Sheet.config s1))
        (sh_name p.1) (rd_start p.2) (rd_end p.2))
    (declared (Sheet.config s1)) →
  (Sheet.collect_regions s1).1 = (Sheet.collect_regions s2).1 ∧
  Sheet.regions (Sheet.collect_regions s1).2
  = Sheet.regions (Sheet.collect_regions s2).2.
Proof.
  intros Hc Hr Hfetch. rewrite !collect_regions_declared, <- Hc.
  apply collect_declared_same_answers; [done..|].
  eapply Forall_impl; [exact Hfetch|]. intros p Hp.
  unfold builds, Sheet.build_region. by rewrite <- Hc, Hp.
Qed.

Lemma collect_regions_declared_ranges_only_witness :
  let config := sample_config [subsheet "Sheet1" [with_headers "R1"]] in
  let s1 := Sheet.mk sample_api config ∅ in
  let s2 := Sheet.mk uniform_api config ∅ in
  (Sheet.collect_regions s1).1 = (Sheet.collect_regions s2).1 ∧
  Sheet.regions (Sheet.collect_regions s1).2
  = Sheet.regions (Sheet.collect_regions s2).2.
Proof.
  intros config s1 s2.
  apply (collect_regions_declared_ranges_only s1 s2).
  - reflexivity.
  - reflexivity.
  - repeat constructor.
Defined.

(** * Further properties of the frames *)

Section to_dataframe.
Implicit Types (data : list (list string)) (headers : option (list string)).

Lemma fill_length (k : nat) (row : list string) :
  length row ≤ k → length (pd.fill k row) = k.
Proof.
  intros Hlen. unfold pd.fill.
  rewrite length_app, length_fmap, length_replicate. lia.
Qed.

Lemma fill_complete (row : list string) :
  pd.fill (length row) row = Some <$> row.
Proof.
  unfold pd.fill. rewrite Nat.sub_diag. simpl. by rewrite app_nil_r.
Qed.

Lemma width_complete data (k : nat) :
  Forall (λ row, length row = k) data → data = [] ∨ pd.width data = k.
Proof.
  intros Hdata. destruct data as [|row data]; [by left|right].
  inversion Hdata as [|? ? Hrow Hrest]; subst. simpl.
  clear Hdata. induction Hrest as [|r data Hr _ IH]; simpl; lia.
Qed.

Lemma from_rows_rectangular data (columns : list string) df :
  pd.from_rows data columns = Ok df →
  Forall (λ cells, length cells = length (pd.columns df)) (pd.rows df).
Proof.
  intros Hdf. apply from_rows_inv in Hdf as [Hshape ->]. simpl.
  apply Forall_fmap, Forall_forall. intros row Hrow. simpl.
  apply fill_length. destruct Hshape as [->|<-].
  - by apply elem_of_nil in Hrow.
  - by apply width_ge.
Qed.

Lemma to_dataframe_inv data (headers_in_data : bool) headers df :
  Sheet.to_dataframe data headers_in_data headers = Ok df →
  if headers_in_data
  then ∃ first rest, data = first :: rest ∧ pd.from_rows rest first = Ok df
  else ∃ header others,
         headers = Some (header :: others) ∧
         pd.from_rows data (header :: others) = Ok df.
Proof.
  unfold Sheet.to_dataframe. destruct headers_in_data.
  - destruct data as [|first rest]; [done|]. simpl. rewrite drop_0.
    intros Hdf. by exists first, rest.
  - destruct headers as [[|header others]|]; [done| |done]. simpl.
    intros Hdf. by exists header, others.
Qed.

Lemma to_dataframe_row_lengths data (headers_in_data : bool) headers df :
  Sheet.to_dataframe data headers_in_data headers = Ok df →
  Forall (λ cells, length cells = length (pd.columns df)) (pd.rows df).
Proof.
  intros Hdf. apply to_dataframe_inv in Hdf. destruct headers_in_data.
  - destruct Hdf as (first & rest & _ & Hdf). by eapply from_rows_rectangular.
  - destruct Hdf as (header & others & _ & Hdf). by eapply from_rows_rectangular.
Qed.

End to_dataframe.

(** X6: The errors of [to_dataframe]: [IndexError] exactly when the header row
    is to be taken from no rows, the missing-headers [Exception] exactly
    when headers are to be supplied and are [None] or empty, and otherwise
    only the [ValueError] of pandas. *)
Theorem to_dataframe_errors (data : list (list string)) (headers_in_data : bool)
    (headers : option (list string)) :
  (Sheet.to_dataframe data headers_in_data headers = Raise IndexError
     ↔ headers_in_data = true ∧ data = []) ∧
  (Sheet.to_dataframe data headers_in_data headers
     = Raise (Exception "No passed table headers")
     ↔ headers_in_data = false ∧ Sheet.truthy headers = false) ∧
  ∀ e, Sheet.to_dataframe data headers_in_data headers = Raise e →
    e = IndexError ∨ e = Exception "No passed table headers" ∨ e = ValueError.
Proof.
  unfold Sheet.to_dataframe, pd.from_rows.
  destruct headers_in_data.
  - destruct data as [|first [|row rest]]; simpl;
      [| |destruct (decide _)];
      (split; [split; [done | by intros [_ ?]]|]);
      (split; [split; [done | by intros [? _]]|]);
      intros err Herr; try discriminate Herr; injection Herr as <-; auto.
  - destruct headers as [[|header others]|]; simpl;
      [| destruct data as [|row rest]; [|destruct (decide _)] |];
      (split; [split; [done | by intros [? _]]|]);
      (split; [split; [done | by intros [_ ?]]|]);
      intros err Herr; try discriminate Herr; injection Herr as <-; auto.
Qed.

Lemma to_dataframe_errors_witness :
  Sheet.to_dataframe [] true None = Raise IndexError.
Proof.
  apply (to_dataframe_errors [] true None). split; reflexivity.
Defined.

(** X7: [to_dataframe] returns a frame exactly when there is a header row, or
    a non-empty list of headers, and the rows under it are none or at
    their widest as wide as the header. *)
Theorem to_dataframe_ok_iff (data : list (list string)) (headers_in_data : bool)
    (headers : option (list string)) :
  is_ok (Sheet.to_dataframe data headers_in_data headers) = true ↔
  if headers_in_data
  then ∃ first rest, data = first :: rest ∧
         (rest = [] ∨ pd.width rest = length first)
  else ∃ header others, headers = Some (header :: others) ∧
         (data = [] ∨ pd.width data = length (header :: others)).
Proof.
  split.
  - destruct (Sheet.to_dataframe data headers_in_data headers) as [df|e] eqn:Hdf;
      [|done]. intros _.
    apply to_dataframe_inv in Hdf. destruct headers_in_data.
    + destruct Hdf as (first & rest & -> & Hdf).
      exists first, rest. split; [done|]. by apply from_rows_inv in Hdf as [? _].
    + destruct Hdf as (header & others & -> & Hdf).
      exists header, others. split; [done|]. by apply from_rows_inv in Hdf as [? _].
  - unfold Sheet.to_dataframe. destruct headers_in_data.
    + intros (first & rest & -> & Hshape). simpl.
      by rewrite drop_0, (from_rows_ok _ _ Hshape).
    + intros (header & others & -> & Hshape). simpl.
      by rewrite (from_rows_ok _ _ Hshape).
Qed.

Lemma to_dataframe_ok_iff_witness :
  is_ok (Sheet.to_dataframe [["a"; "b"]; ["1"]; ["3"; "4"]] true None) = true.
Proof.
  apply (to_dataframe_ok_iff [["a"; "b"]; ["1"]; ["3"; "4"]] true None).
  exists ["a"; "b"], [["1"]; ["3"; "4"]]. split; [reflexivity|].
  right. reflexivity.
Defined.

(** X8: Every frame that [to_dataframe] returns is rectangular: each of its
    rows has one cell per column. *)
Theorem to_dataframe_rectangular (data : list (list string))
    (headers_in_data : bool) (headers : option (list string)) (df : pd.DataFrame) :
  Sheet.to_dataframe data headers_in_data headers = Ok df →
  Forall (λ cells, length cells = length (pd.columns df)) (pd.rows df).
Proof.
  apply to_dataframe_row_lengths.
Qed.

Lemma to_dataframe_rectangular_witness :
  Forall (λ cells : list pd.cell, length cells = 2)
    [[Some "1"; None]; [Some "3"; Some "4"]].
Proof.
  apply (to_dataframe_rectangular [["a"; "b"]; ["1"]; ["3"; "4"]] true None
           (pd.mkDataFrame ["a"; "b"] [[Some "1"; None]; [Some "3"; Some "4"]])).
  reflexivity.
Defined.

(** X9: When every fetched row under the header is as long as the header, the
    frame holds the fetched cells and no empty cell: with the header in the
    data the rows after the first, with supplied headers all rows. *)
Theorem to_dataframe_complete_rows (data : list (list string))
    (headers_in_data : bool) (headers : option (list string))
    (columns : list string) (body : list (list string)) :
  (if headers_in_data then data = columns :: body
   else headers = Some columns ∧ columns ≠ [] ∧ data = body) →
  Forall (λ row, length row = length columns) body →
  Sheet.to_dataframe data headers_in_data headers
  = Ok (pd.mkDataFrame columns ((λ row : list string, Some <$> row) <$> body)).
Proof.
  intros Hinput Hbody.
  pose proof (width_complete _ _ Hbody) as Hshape.
  assert (pd.fill (length columns) <$> body
          = (λ row : list string, Some <$> row) <$> body) as Hfill.
  { clear Hshape Hinput. induction Hbody as [|row body Hrow _ IH]; [done|].
    by rewrite !fmap_cons, IH, <- Hrow, fill_complete. }
  pose proof (from_rows_ok _ _ Hshape) as Hdf. rewrite Hfill in Hdf.
  unfold Sheet.to_dataframe. destruct headers_in_data.
  - subst data. simpl. by rewrite drop_0.
  - destruct Hinput as (-> & Hne & ->).
    by destruct columns as [|header others].
Qed.

Lemma to_dataframe_complete_rows_witness :
  Sheet.to_dataframe [["1"; "2"]; ["3"; "4"]] false (Some ["x"; "y"])
  = Ok (pd.mkDataFrame ["x"; "y"] [[Some "1"; Some "2"]; [Some "3"; Some "4"]]).
Proof.
  apply (to_dataframe_complete_rows [["1"; "2"]; ["3"; "4"]] false
           (Some ["x"; "y"]) ["x"; "y"] [["1"; "2"]; ["3"; "4"]]).
  - split; [reflexivity|]. split; [discriminate | reflexivity].
  - repeat constructor.
Defined.

Lemma bind_ok_inv {A B : Type} (r : result A) (k : A → result B) (b : B) :
  r ≫= k = Ok b → ∃ a, r = Ok a ∧ k a = Ok b.
Proof. destruct r as [a|e]; [|done]. intros Hk. by exists a. Qed.

(** X10: Whenever a region is built, its fetch answered; it carries the
    descriptor's name, subsheet name and range, and its table is the table
    of the fetched rows: under the first fetched row when the descriptor
    has the headers in the data, under the descriptor's non-empty headers
    list otherwise. *)
Theorem build_region_inv (api : sheets_api) (source_id : string)
    (sheet : SubsheetDescriptor) (region : RegionDescriptor)
    (region_object : Region.t) :
  Sheet.build_region api source_id sheet region = Ok region_object →
  ∃ data,
    Sheet.execute_sheets_call api source_id (sh_name sheet)
      (rd_start region) (rd_end region) = Ok data ∧
    region_object
    = Region.init (rd_name region) (sh_name sheet) (rd_start region)
        (rd_end region) (Region.data region_object) ∧
    if rd_contains_headers region
    then ∃ first rest, data = first :: rest ∧
           table_of first rest (Region.data region_object)
    else ∃ header others,
           rd_headers region = Some (Some (header :: others)) ∧
           table_of (header :: others) data (Region.data region_object).
Proof.
  unfold Sheet.build_region. intros Hb.
  apply bind_ok_inv in Hb as (data & Hfetch & Hb).
  apply bind_ok_inv in Hb as (df & Hdf & Hb). injection Hb as <-.
  exists data. split; [done|]. split; [reflexivity|]. simpl.
  destruct (rd_contains_headers region).
  - apply to_dataframe_inv in Hdf as (first & rest & -> & Hdf).
    exists first, rest. split; [done|]. by apply from_rows_table.
  - apply bind_ok_inv in Hdf as (headers & Hheaders & Hdf).
    unfold subscript_headers in Hheaders.
    destruct (rd_headers region) as [headers'|]; [|done].
    injection Hheaders as ->.
    apply to_dataframe_inv in Hdf as (header & others & -> & Hdf).
    exists header, others. split; [done|]. by apply from_rows_table.
Qed.

Lemma build_region_inv_witness :
  let sheet := subsheet "Sheet1" [with_headers "R1"] in
  ∃ region_object data,
    Sheet.build_region sample_api "S1" sheet (with_headers "R1") = Ok region_object ∧
    Sheet.execute_sheets_call sample_api "S1" "Sheet1" "A1" "B2" = Ok data.
Proof.
  intros sheet.
  destruct (Sheet.build_region sample_api "S1" sheet (with_headers "R1"))
    as [region_object|e] eqn:Hb; [|discriminate Hb].
  destruct (build_region_inv sample_api "S1" sheet (with_headers "R1")
              region_object Hb) as (data & Hfetch & _).
  exists region_object, data. split; [reflexivity | exact Hfetch].
Defined.

(** * Further properties of the file loop *)

Section file_loop.
Context (api : sheets_api).
Implicit Types (self : SheetCollector.t) (file : yaml_file)
  (files : list yaml_file).

Lemma files_ok_loads files self self' file :
  for_each (SheetCollector.collect_file api) files self = (Ok (), self') →
  file ∈ files → is_ok (SheetCollector.load_sheet api file) = true.
Proof.
  revert self. induction files as [|f files IH]; intros self Hrun Hfile.
  - by apply elem_of_nil in Hfile.
  - destruct (SheetCollector.load_sheet api f) as [sheet_obj|e] eqn:Hload.
    + rewrite (for_each_cons_ok _ _ _ _ _ (collect_file_ok api self _ _ Hload)) in Hrun.
      apply elem_of_cons in Hfile as [->|Hfile]; [by rewrite Hload|].
      by apply (IH _ Hrun).
    + by rewrite (for_each_cons_raise _ _ _ _ _ _
                    (collect_file_raise api self _ _ Hload)) in Hrun.
Qed.

Lemma files_dom_ok files self self' :
  for_each (SheetCollector.collect_file api) files self = (Ok (), self') →
  dom (SheetCollector.sheets_data self')
  = dom (SheetCollector.sheets_data self) ∪ list_to_set (stem <$> files).
Proof.
  revert self. induction files as [|f files IH]; intros self Hrun.
  - injection Hrun as <-. simpl. by rewrite (right_id_L ∅ (∪)).
  - destruct (SheetCollector.load_sheet api f) as [sheet_obj|e] eqn:Hload.
    + rewrite (for_each_cons_ok _ _ _ _ _ (collect_file_ok api self _ _ Hload)) in Hrun.
      rewrite (IH _ Hrun). simpl. rewrite dom_insert_L.
      by rewrite (assoc_L (∪)), (comm_L (∪) (dom _) {[_]}).
    + by rewrite (for_each_cons_raise _ _ _ _ _ _
                    (collect_file_raise api self _ _ Hload)) in Hrun.
Qed.

(** A file loads exactly as its yaml is a mapping whose regions all
    build; the sheet it gives is the one [collect_regions] filled. *)
Lemma load_sheet_ok_inv file sheet_obj :
  SheetCollector.load_sheet api file = Ok sheet_obj →
  ∃ config,
    safe_load file = Ok (YDict config) ∧
    Sheet.collect_regions (Sheet.mk api config ∅) = (Ok (), sheet_obj).
Proof.
  unfold SheetCollector.load_sheet.
  destruct (safe_load file) as [[config|]|e]; [|done..]. simpl.
  destruct (Sheet.collect_regions _) as [[[]|e] s] eqn:Hrun; [|done].
  intros [= <-]. by exists config.
Qed.

End file_loop.

(** X12: [collect_files] refuses to run on a collector that is not
    authenticated, and leaves it untouched; on an authenticated one it ends
    normally exactly when every discovered file parses to a mapping and all
    its regions build. *)
Theorem collect_files_ok_iff (tree : string → list yaml_file)
    (self : SheetCollector.t) :
  (SheetCollector.sheets self = None →
   SheetCollector.collect_files tree self
   = (Raise (Exception "ERROR: Collector was not authenticated"), self)) ∧
  ((SheetCollector.collect_files tree self).1 = Ok () ↔
   ∃ api, SheetCollector.sheets self = Some api ∧
     Forall (λ f, is_ok (SheetCollector.load_sheet api f) = true)
       (SheetCollector.get_yaml_files tree (SheetCollector.config_dir self))).
Proof.
  unfold SheetCollector.collect_files.
  destruct (SheetCollector.sheets self) as [api|]; simpl.
  - split; [done|]. split.
    + intros Hok. exists api. split; [done|]. apply Forall_forall. intros f Hf.
      destruct (for_each _ _ self) as [o self'] eqn:Hrun. simpl in Hok. subst o.
      by eapply files_ok_loads.
    + intros (api' & [= <-] & Hall). by apply files_all_load.
  - split; [done|]. split; [done|]. by intros (api & ? & _).
Qed.

Lemma collect_files_ok_iff_witness :
  let tree := λ _ : string, [good_file "file1"] in
  let self := SheetCollector.mk "private/keys.json" None "config/sheet_sources" ∅ in
  SheetCollector.collect_files tree self
  = (Raise (Exception "ERROR: Collector was not authenticated"), self).
Proof.
  intros tree self.
  destruct (collect_files_ok_iff tree self) as [Hguard _].
  apply Hguard. reflexivity.
Defined.

(** X13: After a [collect_files] that ends normally, the registry holds the keys
    it held before and the stems of all discovered files, and under the
    stem of a file that no later file shares the sheet loaded from it. *)
Theorem collect_files_registers_files (tree : string → list yaml_file)
    (self self' : SheetCollector.t) (api : sheets_api) :
  SheetCollector.sheets self = Some api →
  SheetCollector.collect_files tree self = (Ok (), self') →
  dom (SheetCollector.sheets_data self')
  = dom (SheetCollector.sheets_data self)
    ∪ list_to_set (stem <$> SheetCollector.get_yaml_files tree
                              (SheetCollector.config_dir self)) ∧
  ∀ before file after,
    SheetCollector.get_yaml_files tree (SheetCollector.config_dir self)
    = before ++ file :: after →
    stem file ∉ stem <$> after →
    ∃ sheet_obj,
      SheetCollector.load_sheet api file = Ok sheet_obj ∧
      SheetCollector.sheets_data self' !! stem file = Some sheet_obj.
Proof.
  intros Hapi. unfold SheetCollector.collect_files. rewrite Hapi.
  intros Hrun. split; [by apply (files_dom_ok api)|].
  intros before file after Hfiles Hafter. rewrite Hfiles in Hrun.
  by apply (files_last api before file after self).
Qed.

Lemma collect_files_registers_files_witness :
  let tree := λ _ : string, [good_file "file1"; good_file "file2"] in
  dom (SheetCollector.sheets_data
         (SheetCollector.collect_files tree (sample_collector ∅)).2)
  = {["file1"; "file2"]}.
Proof.
  intros tree.
  destruct (collect_files_registers_files tree (sample_collector ∅)
              (SheetCollector.collect_files tree (sample_collector ∅)).2
              sample_api eq_refl eq_refl) as [Hdom _].
  rewrite Hdom. simpl. rewrite dom_empty_L.
  by rewrite (left_id_L ∅ (∪)), (right_id_L ∅ (∪)).
Defined.

(** X14: A file fails to load for one of three reasons and no other: opening or
    parsing it raises; its yaml is not a mapping, which the assertion of
    [check_config_schema] rejects; or [collect_regions] raises on the sheet
    constructed from it. *)
Theorem load_sheet_raise_iff (api : sheets_api) (file : yaml_file) (e : error) :
  SheetCollector.load_sheet api file = Raise e ↔
  safe_load file = Raise e ∨
  (safe_load file = Ok YNotDict ∧ e = AssertionError) ∨
  ∃ config,
    safe_load file = Ok (YDict config) ∧
    (Sheet.collect_regions (Sheet.mk api config ∅)).1 = Raise e.
Proof.
  unfold SheetCollector.load_sheet.
  destruct (safe_load file) as [[config|]|e0]; simpl.
  - destruct (Sheet.collect_regions _) as [[[]|e1] s] eqn:Hrun; simpl; split.
    + done.
    + intros [?|[[? _]|(c & ? & He)]]; simplify_eq/=.
      rewrite Hrun in He. by simplify_eq/=.
    + intros [= ->]. right. right. exists config. by rewrite Hrun.
    + intros [?|[[? _]|(c & ? & He)]]; simplify_eq/=.
      rewrite Hrun in He. by simplify_eq/=.
  - split.
    + intros [= <-]. right. by left.
    + intros [?|[[_ ->]|(c & ? & _)]]; by simplify_eq/=.
  - split.
    + intros [= ->]. by left.
    + intros [?|[[? _]|(c & ? & _)]]; by simplify_eq/=.
Qed.

Lemma load_sheet_raise_iff_witness :
  SheetCollector.load_sheet sample_api
    {| stem := "file1"; safe_load := Ok YNotDict |} = Raise AssertionError.
Proof.
  apply (load_sheet_raise_iff sample_api
           {| stem := "file1"; safe_load := Ok YNotDict |} AssertionError).
  right. left. split; reflexivity.
Defined.

Lemma builds_names (self : Sheet.t) (sheet : SubsheetDescriptor)
    (region : RegionDescriptor) (region_object : Region.t) :
  builds self (sheet, region) = Ok region_object →
  Region.region_name region_object = rd_name region ∧
  Region.parent_sheet_name region_object = sh_name sheet.
Proof.
  unfold builds, Sheet.build_region. simpl. intros Hb.
  apply bind_ok_inv in Hb as (data & _ & Hb).
  apply bind_ok_inv in Hb as (df & _ & Hb). by injection Hb as <-.
Qed.

(** X15: After a [collect_files] that ends normally, every region declared in a
    configuration file can be retrieved: the registry holds a sheet under
    the file's stem (for a stem that no later file shares), and
    [get_region] on that sheet returns, for the name of each declared
    region, a region of that name. *)
Theorem collect_files_regions_retrievable (tree : string → list yaml_file)
    (self self' : SheetCollector.t) (api : sheets_api)
    (before : list yaml_file) (file : yaml_file) (after : list yaml_file)
    (config : SourceDescriptor) (sheet : SubsheetDescriptor)
    (region : RegionDescriptor) :
  SheetCollector.sheets self = Some api →
  SheetCollector.collect_files tree self = (Ok (), self') →
  SheetCollector.get_yaml_files tree (SheetCollector.config_dir self)
  = before ++ file :: after →
  stem file ∉ stem <$> after →
  safe_load file = Ok (YDict config) →
  (sheet, region) ∈ declared config →
  ∃ sheet_obj region_object,
    SheetCollector.sheets_data self' !! stem file = Some sheet_obj ∧
    Sheet.config sheet_obj = config ∧
    Sheet.get_region sheet_obj (rd_name region) = Ok region_object ∧
    Region.region_name region_object = rd_name region.
Proof.
  intros Hapi Hrun Hfiles Hafter Hload Hdecl.
  unfold SheetCollector.collect_files in Hrun. rewrite Hapi, Hfiles in Hrun.
  destruct (files_last api before file after self self' Hrun Hafter)
    as (sheet_obj & Hsheet & Hreg).
  apply load_sheet_ok_inv in Hsheet as (config' & Hload' & Hcollect).
  rewrite Hload in Hload'. injection Hload' as <-.
  rewrite collect_regions_declared in Hcollect. simpl in Hcollect.
  pose proof (collect_declared_dom _ _ _ Hcollect) as Hdom.
  assert (is_Some (Sheet.regions sheet_obj !! rd_name region)) as [r Hr].
  { apply elem_of_dom. rewrite Hdom. apply elem_of_union_r, elem_of_list_to_set.
    apply list_elem_of_fmap. by exists (sheet, region). }
  exists sheet_obj, r. split; [done|].
  pose proof (collect_declared_api_config (declared config)
                (Sheet.mk api config ∅)) as [_ Hconfig].
  rewrite Hcollect in Hconfig. simpl in Hconfig. split; [done|].
  unfold Sheet.get_region. rewrite Hr. split; [done|].
  replace sheet_obj with
    (collect_declared (declared config) (Sheet.mk api config ∅)).2 in Hr
    by by rewrite Hcollect.
  apply collect_declared_entries in Hr as [Hold|([sh rd] & _ & Hk & Hb)].
  - simpl in Hold. by rewrite lookup_empty in Hold.
  - apply builds_names in Hb as [Hname _]. by rewrite Hname.
Qed.

Lemma collect_files_regions_retrievable_witness :
  let tree := λ _ : string, [good_file "file1"; good_file "file2"] in
  let self' := (SheetCollector.collect_files tree (sample_collector ∅)).2 in
  ∃ sheet_obj region_object,
    SheetCollector.sheets_data self' !! "file1" = Some sheet_obj ∧
    Sheet.get_region sheet_obj "R1" = Ok region_object ∧
    Region.region_name region_object = "R1".
Proof.
  intros tree self'.
  destruct (collect_files_regions_retrievable tree (sample_collector ∅) self'
              sample_api [] (good_file "file1") [good_file "file2"]
              (sample_config [subsheet "Sheet1" [with_headers "R1"]])
              (subsheet "Sheet1" [with_headers "R1"]) (with_headers "R1"))
    as (sheet_obj & region_object & Hsheet & _ & Hget & Hname).
  - reflexivity.
  - reflexivity.
  - reflexivity.
  - simpl. intros Hin. apply list_elem_of_singleton in Hin. discriminate Hin.
  - reflexivity.
  - apply list_elem_of_here.
  - exists sheet_obj, region_object.
    split; [exact Hsheet|]. split; [exact Hget | exact Hname].
Defined.

(** * Further properties of the JSON export *)

Section strings.
Implicit Types (s t : string).

Lemma string_app_nil t : "" +:+ t = t.
Proof. reflexivity. Qed.

Lemma string_app_cons (c : Ascii.ascii) s t :
  String c s +:+ t = String c (s +:+ t).
Proof. reflexivity. Qed.

(** A string is cut at its first occurrence of a character in one way. *)
Lemma string_cut_unique (c : Ascii.ascii) s1 s2 t1 t2 :
  occurs c s1 = false → occurs c s2 = false →
  s1 +:+ String c t1 = s2 +:+ String c t2 → s1 = s2 ∧ t1 = t2.
Proof.
  revert s2. induction s1 as [|c1 s1 IH]; intros [|c2 s2] H1 H2 Heq;
    rewrite ?string_app_nil, ?string_app_cons in Heq; simpl in H1, H2.
  - by injection Heq as ->.
  - injection Heq as <- _. by rewrite decide_True in H2.
  - injection Heq as -> _. by rewrite decide_True in H1.
  - injection Heq as -> Heq.
    destruct (decide (c = c2)); [done|].
    destruct (IH s2 H1 H2 Heq) as [-> ->]. done.
Qed.

End strings.

(** X16: Regions of subsheets whose names contain no underscore have the same
    full name, and so the same JSON file, only if they have the same
    subsheet name and the same region name. *)
Theorem full_name_inj
    (region_name1 parent1 start1 end1 : string) (data1 : pd.DataFrame)
    (region_name2 parent2 start2 end2 : string) (data2 : pd.DataFrame) :
  occurs "_"%char parent1 = false →
  occurs "_"%char parent2 = false →
  Region.full_name (Region.init region_name1 parent1 start1 end1 data1)
  = Region.full_name (Region.init region_name2 parent2 start2 end2 data2) →
  parent1 = parent2 ∧ region_name1 = region_name2.
Proof.
  intros H1 H2 Heq.
  exact (string_cut_unique "_"%char parent1 parent2 region_name1 region_name2
           H1 H2 Heq).
Qed.

Lemma full_name_inj_witness :
  "Sheet1" = "Sheet1" ∧ "R1" = "R1".
Proof.
  apply (full_name_inj "R1" "Sheet1" "A1" "B2" (pd.mkDataFrame [] [])
           "R1" "Sheet1" "C1" "D2" (pd.mkDataFrame ["a"] [])).
  - reflexivity.
  - reflexivity.
  - reflexivity.
Defined.

Section row_dict_more.
Implicit Types (columns : list string) (cells : list pd.cell)
  (d : gmap string pd.cell).

Lemma row_dict_last columns cells d j c v :
  columns !! j = Some c → cells !! j = Some v →
  (∀ j', j < j' → columns !! j' ≠ Some c) →
  foldl pd.set_item d (zip columns cells) !! c = Some v.
Proof.
  revert cells d j. induction columns as [|c0 columns IH];
    intros cells d j Hc Hv Hlast; [done|].
  destruct cells as [|x cells]; [done|]. simpl.
  destruct j as [|j]; simpl in *.
  - injection Hc as ->. injection Hv as ->.
    rewrite row_dict_other.
    + unfold pd.set_item. simpl. by rewrite lookup_insert_eq.
    + intros Hin. apply list_elem_of_lookup in Hin as [j' Hj'].
      apply (Hlast (S j')); [lia | done].
  - apply (IH _ _ j); [done..|].
    intros j' Hlt. apply (Hlast (S j')). lia.
Qed.

Lemma row_dict_dom columns cells d :
  length cells = length columns →
  dom (foldl pd.set_item d (zip columns cells)) = dom d ∪ list_to_set columns.
Proof.
  revert cells d. induction columns as [|c0 columns IH]; intros cells d Hlen.
  - simpl. by rewrite (right_id_L ∅ (∪)).
  - destruct cells as [|x cells]; [done|]. simpl in *.
    rewrite IH by lia. unfold pd.set_item. simpl. rewrite dom_insert_L.
    by rewrite (assoc_L (∪)), (comm_L (∪) (dom _) {[_]}).
Qed.

End row_dict_more.

(** X17: In the JSON table of a region, the dictionary of a row gives under a
    column name the cell of the last column of that name: of two columns
    with one name, the later one is kept. *)
Theorem region_json_last_column (self : Region.t) (i j : nat)
    (cells : list pd.cell) (c : string) (v : pd.cell) :
  pd.rows (Region.data self) !! i = Some cells →
  pd.columns (Region.data self) !! j = Some c →
  cells !! j = Some v →
  (∀ j', j < j' → pd.columns (Region.data self) !! j' ≠ Some c) →
  ∃ row,
    json.j_data (json.dump (Region.self_data self)) !! pretty i = Some row ∧
    row !! c = Some v.
Proof.
  intros Hcells Hc Hv Hlast. rewrite dump_data_lookup, Hcells. simpl.
  eexists. split; [done|]. by apply (row_dict_last _ _ _ j).
Qed.

Lemma region_json_last_column_witness :
  let data := pd.mkDataFrame ["a"; "a"] [[Some "1"; Some "2"]] in
  let self := Region.init "R1" "Sheet1" "A1" "B2" data in
  ∃ row,
    json.j_data (json.dump (Region.self_data self)) !! pretty 0 = Some row ∧
    row !! "a" = Some (Some "2").
Proof.
  intros data self.
  apply (region_json_last_column self 0 1 [Some "1"; Some "2"] "a" (Some "2")).
  - reflexivity.
  - reflexivity.
  - reflexivity.
  - intros [|[|[|j']]] Hlt; simpl; try discriminate; lia.
Defined.

(** X18: In the JSON table of a region whose frame [to_dataframe] returned,
    each row's dictionary has exactly the column names as keys. *)
Theorem region_json_row_keys (data : list (list string)) (headers_in_data : bool)
    (headers : option (list string)) (df : pd.DataFrame)
    (region_name parent_sheet_name start_range end_range key : string)
    (row : gmap string pd.cell) :
  Sheet.to_dataframe data headers_in_data headers = Ok df →
  json.j_data (json.dump (Region.self_data
    (Region.init region_name parent_sheet_name start_range end_range df))) !! key
  = Some row →
  dom row = list_to_set (pd.columns df).
Proof.
  intros Hdf Hrow.
  apply lookup_kmap_Some in Hrow as (i & -> & Hrow); [|apply _].
  simpl in Hrow. unfold pd.to_dict_index in Hrow.
  rewrite lookup_map_seq_0, list_lookup_fmap in Hrow.
  destruct (pd.rows df !! i) as [cells|] eqn:Hcells; [|done].
  injection Hrow as <-. unfold pd.row_dict.
  rewrite row_dict_dom, dom_empty_L; [by rewrite (left_id_L ∅ (∪))|].
  pose proof (to_dataframe_row_lengths _ _ _ _ Hdf) as Hrect.
  rewrite Forall_forall in Hrect. apply Hrect.
  by eapply list_elem_of_lookup_2.
Qed.

Lemma region_json_row_keys_witness :
  let df := pd.mkDataFrame ["a"; "b"] [[Some "1"; None]; [Some "3"; Some "4"]] in
  ∃ row,
    json.j_data (json.dump (Region.self_data
      (Region.init "R1" "Sheet1" "A1" "B2" df))) !! "0" = Some row ∧
    dom row = {["a"; "b"]}.
Proof.
  intros df.
  destruct (json.j_data (json.dump (Region.self_data
              (Region.init "R1" "Sheet1" "A1" "B2" df))) !! "0")
    as [row|] eqn:Hrow.
  - exists row. split; [reflexivity|].
    rewrite (region_json_row_keys [["a"; "b"]; ["1"]; ["3"; "4"]] true None df
               "R1" "Sheet1" "A1" "B2" "0" row); [|reflexivity|exact Hrow].
    simpl. by rewrite (right_id_L ∅ (∪)).
  - vm_compute in Hrow. discriminate Hrow.
Defined.



(** X11: What [build_region] makes of the answer of the remote service: a
    failure of the call is raised as it is, before the headers are looked
    at; an answer without values counts as no rows, which is an
    [IndexError] when the header row is to be taken from the data and an
    empty table under the descriptor's headers when they are supplied. *)
Theorem build_region_by_answer (api : sheets_api) (source_id : string)
    (sheet : SubsheetDescriptor) (region : RegionDescriptor) :
  let answer :=
    api source_id
      (sh_name sheet +:+ "!" +:+ rd_start region +:+ ":" +:+ rd_end region) in
  (∀ e, answer = Raise e →
     Sheet.build_region api source_id sheet region = Raise e) ∧
  (answer = Ok None → rd_contains_headers region = true →
     Sheet.build_region api source_id sheet region = Raise IndexError) ∧
  (∀ header others,
     answer = Ok None → rd_contains_headers region = false →
     rd_headers region = Some (Some (header :: others)) →
     Sheet.build_region api source_id sheet region
     = Ok (Region.init (rd_name region) (sh_name sheet) (rd_start region)
             (rd_end region) (pd.mkDataFrame (header :: others) []))).
Proof.
  intros answer. subst answer.
  unfold Sheet.build_region, Sheet.execute_sheets_call, subscript_headers.
  repeat split.
  - by intros e ->.
  - by intros -> ->.
  - by intros header others -> -> ->.
Qed.

Lemma build_region_by_answer_witness :
  let sheet := subsheet "Sheet2" [without_headers "R1" (Some (Some ["x"; "y"]))] in
  Sheet.build_region sample_api "S1" sheet
    (without_headers "R1" (Some (Some ["x"; "y"])))
  = Ok (Region.init "R1" "Sheet2" "A1" "B2" (pd.mkDataFrame ["x"; "y"] [])).
Proof.
  intros sheet.
  destruct (build_region_by_answer sample_api "S1" sheet
              (without_headers "R1" (Some (Some ["x"; "y"]))))
    as (_ & _ & Hempty).
  apply (Hempty "x" ["y"]); reflexivity.
Defined.
